(** * WAV-to-IMG: range detection, axis calibration and loading

    A shallow embedding of [WAV-to-IMG.py].  The three functions of the
    script, [detect_valid_frequency_range], [data_acquisition] and
    [plot_fft_freq_chart], and the parameter selection loop are written as
    Rocq functions over lists.

    Conventions.
    - A numpy array of float64 is a [list Q]: every finite double is a
      rational, and the arithmetic is the exact one (rounding is not
      modelled).  A two-dimensional array is the list of its rows.
    - [10 * np.log10 x] is kept symbolic as a [decibel]; its comparison with
      an integer threshold is decided on rationals and proved to agree with
      the real logarithm ([db_gtb_real]).
    - A Python exception is a value of [exn]; a computation that may raise
      returns [exc A].  What a function prints is returned as a list of
      [event]s.
    - [datetime] values count microseconds; [timedelta(seconds=s)] rounds
      [s] to whole microseconds, ties to even, as CPython does.
    - The library calls [scipy.io.wavfile.read], [signal.spectrogram] and
      [float] on a string are parameters of the functions that use them. *)

From Stdlib Require Import ZArith QArith Qround Qreals Reals Lra Lia Ascii String.
From Stdlib Require Lqa.
From stdpp Require Import base option list gmap strings sorting.

Local Open Scope Z_scope.

(** ** Exceptions *)

Inductive exn : Type :=
  | ValueError
  | IndexError
  | TypeError
  | IOError
  | OtherError.

Inductive exc (A : Type) : Type :=
  | Ok (a : A)
  | Raise (e : exn).
Arguments Ok {A} a.
Arguments Raise {A} e.

Definition bind {A B : Type} (m : exc A) (k : A -> exc B) : exc B :=
  match m with
  | Ok a => k a
  | Raise e => Raise e
  end.

Notation "x <- m ;; k" := (bind m (fun x => k))
  (at level 100, m at next level, right associativity).

(** Run [f] over a list, stopping at the first exception. *)
Fixpoint traverse {A B : Type} (f : A -> exc B) (l : list A) : exc (list B) :=
  match l with
  | [] => Ok []
  | x :: r => y <- f x ;; ys <- traverse f r ;; Ok (y :: ys)
  end.

(** ** Numbers *)

Definition Qltb (x y : Q) : bool := negb (Qle_bool y x).

Definition Qmaxb (x y : Q) : Q := if Qle_bool x y then y else x.
Definition Qminb (x y : Q) : Q := if Qle_bool y x then y else x.

(** The value of [10 * np.log10 x]: finite for [x > 0], minus infinity at
    [0] and not-a-number below. *)
Inductive decibel : Type :=
  | Db (x : Q)
  | NegInf
  | NaN.

Definition ten_log10 (x : Q) : decibel :=
  if Qltb 0 x then Db x
  else if Qeq_bool x 0 then NegInf
  else NaN.

(** [d > t] for an integer threshold [t]: [10 * log10 x > t] exactly when
    [x ^ 10 > 10 ^ t].  Comparisons with minus infinity and with
    not-a-number are false. *)
Definition db_gtb (d : decibel) (t : Z) : bool :=
  match d with
  | Db x => Qltb ((10 # 1) ^ t) (x ^ 10)
  | NegInf | NaN => false
  end.

Definition is_finite (d : decibel) : bool :=
  match d with
  | Db _ => true
  | NegInf | NaN => false
  end.

(** ** numpy operations used by the script *)

(** [np.max] of one row; numpy refuses an empty reduction. *)
Definition np_max (row : list Q) : exc Q :=
  match row with
  | [] => Raise ValueError
  | x :: xs => Ok (foldl Qmaxb x xs)
  end.

Definition np_min (row : list Q) : exc Q :=
  match row with
  | [] => Raise ValueError
  | x :: xs => Ok (foldl Qminb x xs)
  end.

(** [np.max(Pxx, axis=1)]. *)
Definition np_max_axis1 (Pxx : list (list Q)) : exc (list Q) :=
  traverse np_max Pxx.

(** [np.argmax] of a boolean array: the first index that holds the maximum,
    so the first [true], and index 0 when every entry is [false]. *)
Fixpoint index_of (v : bool) (b : list bool) : nat :=
  match b with
  | [] => 0%nat
  | x :: r => if Bool.eqb x v then 0%nat else S (index_of v r)
  end.

Definition max_bool (b : list bool) : bool := foldr orb false b.

Definition np_argmax (b : list bool) : exc Z :=
  match b with
  | [] => Raise ValueError
  | _ :: _ => Ok (Z.of_nat (index_of (max_bool b) b))
  end.

(** [a[i]] with Python's negative indices. *)
Definition getitem {A : Type} (a : list A) (i : Z) : exc A :=
  let n := Z.of_nat (length a) in
  let j := if i <? 0 then i + n else i in
  if (0 <=? j) && (j <? n)
  then from_option Ok (Raise IndexError) (a !! Z.to_nat j)
  else Raise IndexError.

(** [a[mask]] along the first axis; the mask must be as long as the array. *)
Fixpoint select {A : Type} (mask : list bool) (a : list A) : list A :=
  match mask, a with
  | m :: mask', x :: a' => if m then x :: select mask' a' else select mask' a'
  | _, _ => []
  end.

Definition bool_index {A : Type} (a : list A) (mask : list bool) : exc (list A) :=
  if (length mask =? length a)%nat then Ok (select mask a) else Raise IndexError.

(** ** What the script prints *)

Inductive event : Type :=
  | PrintValidRange (min_freq max_freq : Q)
  | PrintDetectError (e : exn)
  | PrintStereo
  | PrintReadError (e : exn)
  | PrintError (e : exn)
  | PrintMemory
  | PrintIOError
  | PrintValueError
  | PrintInvalidChoice
  | PrintOverlapTooLarge
  | PrintNotANumber.

(** ** detect_valid_frequency_range *)

Definition threshold_db : Z := 20.

(** [1e-10] *)
Definition epsilon : Q := 1 # 10000000000.

Definition max_db_per_freq (Pxx : list (list Q)) : exc (list decibel) :=
  m <- np_max_axis1 Pxx ;;
  Ok ((fun x => ten_log10 (x + epsilon)%Q) <$> m).

Definition above_threshold (d : list decibel) : list bool :=
  (fun x => db_gtb x threshold_db) <$> d.

(** The body of the [try] block, up to the [return]. *)
Definition detect_body (freqs_array : list Q) (Pxx : list (list Q)) : exc (Q * Q) :=
  max_db <- max_db_per_freq Pxx ;;
  min_freq_index <- np_argmax (above_threshold max_db) ;;
  min_freq <- getitem freqs_array min_freq_index ;;
  r <- np_argmax (above_threshold (reverse max_db)) ;;
  let max_freq_index := Z.of_nat (length freqs_array) - r - 1 in
  max_freq <- getitem freqs_array max_freq_index ;;
  Ok (min_freq, max_freq).

(** The function: the pair on success, [None] when anything raised, with
    the line printed on either path. *)
Definition detect_valid_frequency_range (freqs_array : list Q) (Pxx : list (list Q))
  : list event * option (Q * Q) :=
  match detect_body freqs_array Pxx with
  | Ok (min_freq, max_freq) => ([PrintValidRange min_freq max_freq], Some (min_freq, max_freq))
  | Raise e => ([PrintDetectError e], None)
  end.

(** ** data_acquisition *)

(** What [scipy.io.wavfile.read] hands back: a one-dimensional array for a
    single channel, otherwise one row of channel values per sample frame. *)
Inductive ndarray : Type :=
  | Mono (samples : list Z)
  | Multi (frames : list (list Z)).

Definition ndim (a : ndarray) : Z :=
  match a with
  | Mono _ => 1
  | Multi _ => 2
  end.

(** [linear_array[:, 0]] *)
Definition first_column (a : ndarray) : exc ndarray :=
  match a with
  | Mono _ => Raise IndexError
  | Multi frames => col <- traverse (fun frame => getitem frame 0) frames ;; Ok (Mono col)
  end.

(** The three shapes of the function's result: the pair, [(None, None)]
    and [-1]. *)
Inductive acquired : Type :=
  | Loaded (sample_rate : Z) (linear_array : ndarray)
  | NoneNone
  | MinusOne.

Section Loader.

(** [scipy.io.wavfile.read] *)
Variable read : string -> exc (Z * ndarray).

Definition data_acquisition (filename : string) : list event * acquired :=
  match read filename with
  | Ok (sample_rate, linear_array) =>
      if 1 <? ndim linear_array then
        match first_column linear_array with
        | Ok linear_array' => ([PrintStereo], Loaded sample_rate linear_array')
        | Raise IOError => ([PrintReadError IOError], NoneNone)
        | Raise e => ([PrintError e], MinusOne)
        end
      else ([], Loaded sample_rate linear_array)
  | Raise IOError => ([PrintReadError IOError], NoneNone)
  | Raise e => ([PrintError e], MinusOne)
  end.

End Loader.

(** ** Time *)

(** A [datetime], in microseconds. *)
Definition datetime : Type := Z.

Definition round_half_even (x : Q) : Z :=
  let n := Qfloor x in
  match (x - inject_Z n ?= 1 # 2)%Q with
  | Lt => n
  | Gt => n + 1
  | Eq => if Z.even n then n else n + 1
  end.

(** [timedelta(seconds=s)], in microseconds. *)
Definition timedelta_seconds (s : Q) : Z := round_half_even (s * 1000000).

Definition min_datetime (l : list datetime) : exc datetime :=
  match l with
  | [] => Raise ValueError
  | x :: xs => Ok (foldl Z.min x xs)
  end.

Definition max_datetime (l : list datetime) : exc datetime :=
  match l with
  | [] => Raise ValueError
  | x :: xs => Ok (foldl Z.max x xs)
  end.

(** ** plot_fft_freq_chart *)

(** The module-level names the function reads. *)
Record globals : Type := {
  name : string;
  freq_str : string
}.

(** What reaches [plt.imshow] and the labels. *)
Record RenderedView : Type := {
  log_spec : list (list decibel);
  time_array : list datetime;
  freqs_array_display : list Q;
  extent : datetime * datetime * Q * Q;
  title : string;
  xlabel : datetime;
  ylabel : Q
}.

Inductive plot_result : Type :=
  | Shown (v : RenderedView)
  | ReturnedMinusOne
  | Propagated (e : exn).

(** [s[:-2]] *)
Definition drop_last2 (s : string) : string :=
  String.substring 0 (String.length s - 2) s.

(** Unpacking the result of the detection into two names. *)
Definition unpack (r : option (Q * Q)) : exc (Q * Q) :=
  match r with
  | Some p => Ok p
  | None => Raise TypeError
  end.

Definition surface : Type := list Q * list Q * list (list Q).

(** [(freqs_array >= min_freq) & (freqs_array <= max_freq)] *)
Definition in_range (min_freq max_freq : Q) (freqs_array : list Q) : list bool :=
  (fun f => Qle_bool min_freq f && Qle_bool f max_freq) <$> freqs_array.

Section Plot.

(** [float] on a string *)
Variable py_float : string -> exc Q.
(** [signal.spectrogram(x, fs, nperseg=, noverlap=)] *)
Variable spectrogram : list Z -> Z -> Z -> Z -> exc surface.
Variable g : globals.

(** From the display range to [plt.show()]. *)
Definition display (s : surface) (utc_time : datetime) (base_freq_mhz : Q)
    (range : option (Q * Q)) : exc RenderedView :=
  let '(freqs_array, time_array, Pxx) := s in
  r <- unpack range ;;
  let '(min_freq, max_freq) := r in
  let display_mask := in_range min_freq max_freq freqs_array in
  freqs_array_display <- bool_index freqs_array display_mask ;;
  Pxx_display <- bool_index Pxx display_mask ;;
  t0 <- np_min time_array ;;
  let start_time := utc_time + timedelta_seconds t0 in
  let time_array := (fun sec => start_time + timedelta_seconds sec) <$> time_array in
  let time_array := start_time :: time_array in
  base_freq_hz <- py_float (drop_last2 (freq_str g)) ;;
  let freqs_array_display :=
    (fun f => ((base_freq_hz + f) / 1000000)%Q) <$> freqs_array_display in
  let log_spec := (fun row : list Q => ten_log10 <$> row) <$> Pxx_display in
  left <- min_datetime time_array ;;
  right <- max_datetime time_array ;;
  bottom <- np_min freqs_array_display ;;
  top <- np_max freqs_array_display ;;
  Ok {| log_spec := log_spec;
        time_array := time_array;
        freqs_array_display := freqs_array_display;
        extent := (left, right, bottom, top);
        title := name g ++ " Signal Rceived By Haikou Station";
        xlabel := start_time;
        ylabel := base_freq_mhz |}.

(** The two [except] clauses. *)
Definition handle (printed : list event) (e : exn) : list event * plot_result :=
  match e with
  | IOError => (printed ++ [PrintIOError], ReturnedMinusOne)
  | ValueError => (printed ++ [PrintValueError], ReturnedMinusOne)
  | _ => (printed, Propagated e)
  end.

Definition plot_fft_freq_chart (NFFT noverlap sample_rate : Z) (linear_array : list Z)
    (utc_time : datetime) (base_freq_mhz : Q) : list event * plot_result :=
  match spectrogram linear_array sample_rate NFFT noverlap with
  | Raise e => handle [] e
  | Ok (freqs_array, time_array, Pxx) =>
      let printed := [PrintMemory; PrintMemory; PrintMemory; PrintMemory] in
      let '(out, range) := detect_valid_frequency_range freqs_array Pxx in
      let printed := printed ++ out in
      match display (freqs_array, time_array, Pxx) utc_time base_freq_mhz range with
      | Ok v => (printed, Shown v)
      | Raise e => handle printed e
      end
  end.

End Plot.

(** ** The preset selection loop *)

(** [int(x)] of a float: towards zero. *)
Definition py_int (x : Q) : Z :=
  if Qle_bool 0 x then Qfloor x else Qceiling x.

Inductive selection : Type :=
  | Selected (NFFT noverlap : Z) (stdin : list string)
  | EndOfInput.

Definition say (e : event) (r : list event * selection) : list event * selection :=
  (e :: r.1, r.2).

Section Selection.

Variable py_float : string -> exc Q.

(** The inner loop of preset 0: two numbers are read until the first is
    at least the second. *)
Fixpoint manual_entry (stdin : list string) : list event * selection :=
  match stdin with
  | [] => ([], EndOfInput)
  | l1 :: stdin1 =>
      match py_float l1 with
      | Raise _ => say PrintNotANumber (manual_entry stdin1)
      | Ok x =>
          let NFFT := py_int x in
          match stdin1 with
          | [] => ([], EndOfInput)
          | l2 :: stdin2 =>
              match py_float l2 with
              | Raise _ => say PrintNotANumber (manual_entry stdin2)
              | Ok y =>
                  let noverlap := py_int y in
                  if NFFT >=? noverlap then ([], Selected NFFT noverlap stdin2)
                  else say PrintOverlapTooLarge (manual_entry stdin2)
              end
          end
      end
  end.

Fixpoint select_parameters (stdin : list string) : list event * selection :=
  match stdin with
  | [] => ([], EndOfInput)
  | choose :: stdin' =>
      if String.eqb choose "0" then manual_entry stdin'
      else if String.eqb choose "1" then ([], Selected 32786 30000 stdin')
      else if String.eqb choose "2" then ([], Selected 16384 15000 stdin')
      else if String.eqb choose "3" then ([], Selected 16384 12000 stdin')
      else say PrintInvalidChoice (select_parameters stdin')
  end.

End Selection.


(** ** detect_valid_frequency_range over shared arrays

    numpy arrays are objects passed by reference: the function receives the
    two arrays of its caller, not copies.  [Store] runs the same statements
    over a heap of arrays.  Every numpy call of the function builds a new
    array (or a view, for [[::-1]]); none writes into an existing one. *)

Module Store.

Inductive object : Type :=
  | Floats (a : list Q)
  | Floats2 (a : list (list Q))
  | Decibels (a : list decibel)
  | Bools (a : list bool).

Definition loc : Type := nat.

Record store : Type := {
  heap : gmap loc object;
  stdout : list event
}.

Definition ST (A : Type) : Type := store -> exc A * store.

Definition ret {A : Type} (a : A) : ST A := fun s => (Ok a, s).

Definition raise {A : Type} (e : exn) : ST A := fun s => (Raise e, s).

Definition bind {A B : Type} (m : ST A) (k : A -> ST B) : ST B := fun s =>
  match m s with
  | (Ok a, s') => k a s'
  | (Raise e, s') => (Raise e, s')
  end.

Notation "x <~ m ;; k" := (bind m (fun x => k))
  (at level 100, m at next level, right associativity).

Definition lift {A : Type} (r : exc A) : ST A := fun s => (r, s).

(** The store after a new array [o] was built. *)
Definition with_new (s : store) (o : object) : store :=
  {| heap := <[fresh (dom (heap s)) := o]> (heap s); stdout := stdout s |}.

Definition alloc (o : object) : ST loc := fun s =>
  (Ok (fresh (dom (heap s))), with_new s o).

Definition load (l : loc) : ST object := fun s =>
  match heap s !! l with
  | Some o => (Ok o, s)
  | None => (Raise OtherError, s)
  end.

Definition print (e : event) : ST unit := fun s =>
  (Ok tt, {| heap := heap s; stdout := stdout s ++ [e] |}).

Definition try_except {A : Type} (m : ST A) (h : exn -> ST A) : ST A := fun s =>
  match m s with
  | (Ok a, s') => (Ok a, s')
  | (Raise e, s') => h e s'
  end.

(** The numpy calls, each from the arrays it reads to the array it builds. *)

Definition max_axis1 (Pxx : loc) : ST loc :=
  o <~ load Pxx ;;
  match o with
  | Floats2 a => m <~ lift (np_max_axis1 a) ;; alloc (Floats m)
  | _ => raise OtherError
  end.

Definition add_scalar (x : loc) (c : Q) : ST loc :=
  o <~ load x ;;
  match o with
  | Floats a => alloc (Floats ((fun v => (v + c)%Q) <$> a))
  | _ => raise TypeError
  end.

(** [10 * np.log10(x)] *)
Definition ten_log10_of (x : loc) : ST loc :=
  o <~ load x ;;
  match o with
  | Floats a => alloc (Decibels (ten_log10 <$> a))
  | _ => raise TypeError
  end.

Definition gt_scalar (x : loc) (t : Z) : ST loc :=
  o <~ load x ;;
  match o with
  | Decibels a => alloc (Bools ((fun d => db_gtb d t) <$> a))
  | _ => raise TypeError
  end.

(** [x[::-1]] *)
Definition reversed (x : loc) : ST loc :=
  o <~ load x ;;
  match o with
  | Decibels a => alloc (Decibels (reverse a))
  | _ => raise TypeError
  end.

Definition argmax (x : loc) : ST Z :=
  o <~ load x ;;
  match o with
  | Bools a => lift (np_argmax a)
  | _ => raise TypeError
  end.

Definition item (x : loc) (i : Z) : ST Q :=
  o <~ load x ;;
  match o with
  | Floats a => lift (getitem a i)
  | _ => raise TypeError
  end.

Definition len (x : loc) : ST Z :=
  o <~ load x ;;
  match o with
  | Floats a => ret (Z.of_nat (length a))
  | _ => raise TypeError
  end.

(** The body of the [try] block. *)
Definition detect_body (freqs_array Pxx : loc) : ST (option (Q * Q)) :=
  peak <~ max_axis1 Pxx ;;
  shifted <~ add_scalar peak epsilon ;;
  max_db_per_freq <~ ten_log10_of shifted ;;
  above <~ gt_scalar max_db_per_freq threshold_db ;;
  min_freq_index <~ argmax above ;;
  min_freq <~ item freqs_array min_freq_index ;;
  n <~ len freqs_array ;;
  backwards <~ reversed max_db_per_freq ;;
  above_backwards <~ gt_scalar backwards threshold_db ;;
  r <~ argmax above_backwards ;;
  max_freq <~ item freqs_array (n - r - 1) ;;
  _ <~ print (PrintValidRange min_freq max_freq) ;;
  ret (Some (min_freq, max_freq)).

Definition detect_valid_frequency_range (freqs_array Pxx : loc) : ST (option (Q * Q)) :=
  try_except (detect_body freqs_array Pxx)
             (fun e => _ <~ print (PrintDetectError e) ;; ret None).

End Store.

(** ** The spectrogram engine

    [signal.spectrogram] is scipy's; the script only calls it.  What the
    claims on the number of frequency rows and time columns need is its
    segmentation, which is modelled from the specification. *)

Module Engine.

(** Modelled from the spec: the sliding window of the Spectrogram Engine
    (section 4.2), which is scipy's [signal.spectrogram] and not part of the
    sources.  A window of length [N] is laid at the start of the samples
    and moved by the step [N - V] for as long as it fits. *)
Fixpoint fit_windows (fuel N step : nat) (samples : list Z) : list (list Z) :=
  match fuel with
  | O => []
  | S fuel' =>
      if (N <=? length samples)%nat
      then take N samples :: fit_windows fuel' N step (drop step samples)
      else []
  end.

(** Modelled from the spec: the windows fitted to the samples.  A window
    holds at least one sample and the step is at least one, so there are no
    more windows than samples. *)
Definition windows (N V : nat) (samples : list Z) : list (list Z) :=
  fit_windows (length samples) N (N - V) samples.

(** Modelled from the spec: one relative time per window fitted, counted
    from the start of the recording. *)
Definition times (N V : nat) (sample_rate : Z) (samples : list Z) : list Q :=
  imap (fun k _ => (inject_Z (Z.of_nat (k * (N - V))) / inject_Z sample_rate)%Q)
       (windows N V samples).

(** Modelled from the spec: the one-sided spectrum.  Of the [N] bins
    [k * sample_rate / N] of a transform of length [N], those up to
    [sample_rate / 2] are kept. *)
Definition frequencies (N : nat) (sample_rate : Z) : list Q :=
  (fun k : nat => (inject_Z (Z.of_nat k * sample_rate) / inject_Z (Z.of_nat N))%Q)
    <$> List.filter (fun k => (2 * k <=? N)%nat) (seq 0 N).

(** Modelled from the spec: the engine's guard.  [None] stands for
    [ParameterFailure]; the power values are not modelled. *)
Definition axes (samples : list Z) (sample_rate N V : Z) : option (list Q * list Q) :=
  if (0 <=? V) && (V <? N) && (N <=? Z.of_nat (length samples))
  then Some (frequencies (Z.to_nat N) sample_rate,
             times (Z.to_nat N) (Z.to_nat V) sample_rate samples)
  else None.

End Engine.

(** ** Concrete library stand-ins used in the worked examples *)

Definition digit_value (c : ascii) : option Z :=
  let n := Z.of_nat (nat_of_ascii c) in
  if (48 <=? n) && (n <=? 57) then Some (n - 48) else None.

Fixpoint digits_value (s : string) (acc : Z) : option Z :=
  match s with
  | EmptyString => Some acc
  | String c r =>
      match digit_value c with
      | Some d => digits_value r (10 * acc + d)
      | None => None
      end
  end.

(** [float] on a string of ASCII decimal digits (what the pattern
    [\d+Hz] leaves of [freq_str] once [Hz] is cut off); every other string
    is refused here. *)
Definition float_of_digits (s : string) : exc Q :=
  match s with
  | EmptyString => Raise ValueError
  | String _ _ =>
      match digits_value s 0 with
      | Some n => Ok (inject_Z n)
      | None => Raise ValueError
      end
  end.

(** ** The decibel scale over the reals *)

Definition log10 (r : R) : R := (ln r / ln 10)%R.

(** [m] is the greatest value of the row. *)
Definition is_max (m : Q) (row : list Q) : Prop :=
  m ∈ row /\ forall x, x ∈ row -> (x <= m)%Q.

(** A frequency row exceeds the threshold: its maximum power over all time
    columns, raised by epsilon, has a logarithm, and ten times that
    logarithm is above [threshold_db]. *)
Definition row_exceeds (row : list Q) : Prop :=
  exists m, is_max m row /\ (0 < m + epsilon)%Q /\
            (IZR threshold_db < 10 * log10 (Q2R (m + epsilon)))%R.

Definition row_max (row : list Q) : Q :=
  match row with
  | [] => 0
  | x :: xs => foldl Qmaxb x xs
  end.

(** The same test as the script computes it. *)
Definition row_above (row : list Q) : bool :=
  match np_max row with
  | Ok m => db_gtb (ten_log10 (m + epsilon)) threshold_db
  | Raise _ => false
  end.

(** A two-dimensional array has rows of one length. *)
Definition rectangular (columns : nat) (Pxx : list (list Q)) : Prop :=
  Forall (fun row => length row = columns) Pxx.

(** The invariant of a spectrogram surface: one row per frequency, one
    column per time. *)
Definition surface_wf (s : surface) : Prop :=
  let '(freqs_array, time_array, Pxx) := s in
  length Pxx = length freqs_array /\ rectangular (length time_array) Pxx.

(** ** Worked inputs *)

Definition station : globals :=
  {| name := "NOAA19"; freq_str := "137100000Hz" |}.

(** 2024-01-01T00:00:00Z *)
Definition new_year_2024 : datetime := 1704067200000000.

(** A transform that answers with the surface [s]. *)
Definition answering (s : surface) : list Z -> Z -> Z -> Z -> exc surface :=
  fun _ _ _ _ => Ok s.

(** Eight samples at 4 Hz in two windows of four: a burst, then digital
    silence. *)
Definition burst_then_silence : surface :=
  ([0; 1; 2], [1 # 2; 3 # 2], [[2000; 0]; [50000; 0]; [3000; 0]])%Q.

(** Six samples of silence at 6 Hz, taken as a single window of six. *)
Definition silence : surface :=
  ([0; 1; 2; 3], [1 # 2], [[0]; [0]; [0]; [0]])%Q.

(** The view the script shows for [burst_then_silence] and the station
    above. *)
Definition burst_view : RenderedView :=
  {| log_spec := [[Db 2000; NegInf]; [Db 50000; NegInf]; [Db 3000; NegInf]];
     time_array := [1704067200500000; 1704067201000000; 1704067202000000];
     freqs_array_display :=
       [137100000 # 1000000; 137100001 # 1000000; 137100002 # 1000000]%Q;
     extent := (1704067200500000, 1704067202000000,
                (137100000 # 1000000)%Q, (137100002 # 1000000)%Q);
     title := "NOAA19 Signal Rceived By Haikou Station";
     xlabel := 1704067200500000;
     ylabel := 1371 # 10 |}.

(** The recording behind [burst_then_silence]. *)
Definition burst_samples : list Z := [100; -100; 100; -100; 0; 0; 0; 0].

(** The frequency axis of the view, when one is shown. *)
Definition frequency_axis (r : list event * plot_result) : option (list Q) :=
  match r.2 with
  | Shown v => Some (freqs_array_display v)
  | ReturnedMinusOne | Propagated _ => None
  end.

(** A stereo recording of three frames at 48 kHz, and the reader that finds
    it under one name and nothing under any other. *)
Definition stereo_frames : list (list Z) := [[5; -5]; [7; 70]; [-9; 90]].

Definition one_file (filename : string) : exc (Z * ndarray) :=
  if String.eqb filename "ISS_20240101_235959Z_145800000Hz_AF.wav"
  then Ok (48000, Multi stereo_frames)
  else Raise IOError.

(** Six samples of silence, and the view the script shows for them. *)
Definition silent_samples : list Z := [0; 0; 0; 0; 0; 0].

Definition silence_view : RenderedView :=
  {| log_spec := [[NegInf]; [NegInf]; [NegInf]; [NegInf]];
     time_array := [1704067200500000; 1704067201000000];
     freqs_array_display :=
       [137100000 # 1000000; 137100001 # 1000000;
        137100002 # 1000000; 137100003 # 1000000]%Q;
     extent := (1704067200500000, 1704067201000000,
                (137100000 # 1000000)%Q, (137100003 # 1000000)%Q);
     title := "NOAA19 Signal Rceived By Haikou Station";
     xlabel := 1704067200500000;
     ylabel := 1371 # 10 |}.

(** Every array of [s] is still there, unchanged, in [s']. *)
Definition preserved (s s' : Store.store) : Prop :=
  forall l o, Store.heap s !! l = Some o -> Store.heap s' !! l = Some o.

(** A caller's store: the frequencies at 0, the power surface at 1. *)
Definition caller_store : Store.store :=
  {| Store.heap :=
       <[0%nat := Store.Floats [0; 1; 2]%Q]>
         (<[1%nat := Store.Floats2 [[0; 1000]; [0; 0]; [3; 200]]%Q]> ∅);
     Store.stdout := [] |}.

(** ** name_resolution

    File names are taken to be ASCII.  The pattern is matched from the
    start of the name only ([re.match]); what follows [_AF.wav] is not
    looked at. *)

Definition is_digit (c : ascii) : bool :=
  let n := nat_of_ascii c in (48 <=? n)%nat && (n <=? 57)%nat.

Definition not_underscore (c : ascii) : bool := negb (Ascii.eqb c "_").

(** The longest prefix of characters that satisfy [p], and the rest. *)
Fixpoint span (p : ascii -> bool) (s : string) : string * string :=
  match s with
  | EmptyString => (EmptyString, EmptyString)
  | String c r =>
      if p c then let '(a, b) := span p r in (String c a, b)
      else (EmptyString, s)
  end.

(** [\d{n}] *)
Fixpoint digits_exactly (n : nat) (s : string) : option (string * string) :=
  match n with
  | O => Some (EmptyString, s)
  | S n' =>
      match s with
      | EmptyString => None
      | String c r =>
          if is_digit c then
            match digits_exactly n' r with
            | Some (a, b) => Some (String c a, b)
            | None => None
            end
          else None
      end
  end.

(** A literal piece of the pattern: what is left of [s] after it. *)
Fixpoint literal (lit s : string) : option string :=
  match lit with
  | EmptyString => Some s
  | String c lit' =>
      match s with
      | EmptyString => None
      | String d r => if Ascii.eqb c d then literal lit' r else None
      end
  end.

(** The three named groups. *)
Record groups : Type := {
  group_name : string;
  group_time : string;
  group_freq : string
}.

(** [re.match(r'(?P<name>[^_]+)_(?P<time>\d{8}_\d{6}Z)_(?P<freq>\d+Hz)_AF\.wav', filename)].
    No piece of the pattern can give back characters to the next one: a
    run of non-underscores ends at an underscore and a run of digits ends
    at a non-digit, so the greedy match is the only one. *)
Definition match_filename (filename : string) : option groups :=
  let '(name, r) := span not_underscore filename in
  if String.eqb name "" then None else
  r ← literal "_" r;
  '(date, r) ← digits_exactly 8 r;
  r ← literal "_" r;
  '(clock, r) ← digits_exactly 6 r;
  r ← literal "Z_" r;
  let '(hz, r) := span is_digit r in
  if String.eqb hz "" then None else
  r ← literal "Hz" r;
  _ ← literal "_AF.wav" r;
  Some {| group_name := name;
          group_time := (date ++ "_" ++ clock ++ "Z")%string;
          group_freq := (hz ++ "Hz")%string |}.

(** What the setup part of the script prints. *)
Inductive console : Type :=
  | PrintFileList (wav_files : list string)
  | PrintInvalidSelection
  | PrintSelectionNotANumber
  | PrintResolved (name : string) (utc_time : datetime) (base_freq_mhz : Q)
  | PrintNotMatching (filename : string)
  | PrintBadFormat
  | PrintPresets.

Inductive resolution : Type :=
  | Resolved (name time_str freq_str : string) (utc_time : datetime)
             (base_freq_mhz : Q) (stdin : list string)
  | ResolutionRaised (e : exn)
  | ResolutionEndOfInput.

Section Resolution.

(** [float] on a string *)
Variable py_float : string -> exc Q.
(** [datetime.strptime(_, "%Y%m%d_%H%M%SZ")] *)
Variable strptime : string -> exc datetime.

(** The branch taken when the pattern matches, up to the prints. *)
Definition read_groups (m : groups) : exc (datetime * Q) :=
  utc_time <- strptime (group_time m) ;;
  hz <- py_float (drop_last2 (group_freq m)) ;;
  Ok (utc_time, (hz / 1000000)%Q).

(** The [while True] of the other branch.  Each round reads three lines,
    builds a file name from them and calls [name_resolution] on it; a
    [ValueError] of that call is caught and the round is repeated, and a
    name that does not match the pattern starts the same loop one call
    deeper. *)
Fixpoint manual_resolution (filename : string) (stdin : list string)
  : list console * resolution :=
  match stdin with
  | name :: time_string :: freq_string :: rest =>
      let filename' :=
        (name ++ "_" ++ time_string ++ "_" ++ freq_string ++ "_AF.wav")%string in
      match match_filename filename' with
      | Some m =>
          match read_groups m with
          | Ok (utc_time, base_freq_mhz) =>
              ([PrintNotMatching filename;
                PrintResolved (group_name m) utc_time base_freq_mhz],
               Resolved (group_name m) (group_time m) (group_freq m)
                        utc_time base_freq_mhz rest)
          | Raise ValueError =>
              let '(out, r) := manual_resolution filename' rest in
              (PrintNotMatching filename :: PrintBadFormat :: out, r)
          | Raise e => ([PrintNotMatching filename], ResolutionRaised e)
          end
      | None =>
          let '(out, r) := manual_resolution filename' rest in
          (PrintNotMatching filename :: out, r)
      end
  | _ => ([PrintNotMatching filename], ResolutionEndOfInput)
  end.

Definition name_resolution (filename : string) (stdin : list string)
  : list console * resolution :=
  match match_filename filename with
  | Some m =>
      match read_groups m with
      | Ok (utc_time, base_freq_mhz) =>
          ([PrintResolved (group_name m) utc_time base_freq_mhz],
           Resolved (group_name m) (group_time m) (group_freq m)
                    utc_time base_freq_mhz stdin)
      | Raise e => ([], ResolutionRaised e)
      end
  | None => manual_resolution filename stdin
  end.

End Resolution.

(** ** The file selection loop *)

(** [f.endswith(suffix)] *)
Definition endswith (suffix f : string) : bool :=
  let n := String.length f in
  let k := String.length suffix in
  if (k <=? n)%nat then String.eqb (String.substring (n - k) k f) suffix else false.

(** [[f for f in os.listdir() if f.endswith(".wav")]] *)
Definition wav_files (listdir : list string) : list string :=
  List.filter (endswith ".wav") listdir.

Inductive choice : Type :=
  | Chosen (filename : string) (stdin : list string)
  | ChoiceRaised (e : exn)
  | ChoiceEndOfInput.

Section FileChoice.

(** [int] on a string *)
Variable py_int_str : string -> exc Z.

Fixpoint choose_file (files : list string) (stdin : list string)
  : list console * choice :=
  match stdin with
  | [] => ([], ChoiceEndOfInput)
  | choosefile :: rest =>
      match py_int_str choosefile with
      | Ok n =>
          let file_index := n - 1 in
          if (0 <=? file_index) && (file_index <? Z.of_nat (length files)) then
            match getitem files file_index with
            | Ok filename => ([], Chosen filename rest)
            | Raise e => ([], ChoiceRaised e)
            end
          else
            let '(out, r) := choose_file files rest in
            (PrintInvalidSelection :: out, r)
      | Raise ValueError =>
          let '(out, r) := choose_file files rest in
          (PrintSelectionNotANumber :: out, r)
      | Raise e => ([], ChoiceRaised e)
      end
  end.

End FileChoice.

(** ** The script from top to bottom *)

Inductive output : Type :=
  | Setup (c : console)
  | Core (e : event).

(** How a run ends: with the outcome of [plot_fft_freq_chart]; with that
    function called on [(None, None)], which the loader returns after an
    [IOError]; with an exception nobody catches; or waiting for input that
    does not come. *)
Inductive finished : Type :=
  | Plotted (g : globals) (NFFT noverlap sample_rate : Z) (linear_array : list Z)
            (utc_time : datetime) (base_freq_mhz : Q) (r : plot_result)
  | PlottedWithoutData
  | Crashed (e : exn)
  | OutOfInput.

Section Script.

Variable listdir : list string.
Variable py_int_str : string -> exc Z.
Variable py_float : string -> exc Q.
Variable strptime : string -> exc datetime.
Variable read : string -> exc (Z * ndarray).
Variable spectrogram : list Z -> Z -> Z -> Z -> exc surface.

(** Lines 225 to 231, once the parameters are chosen. *)
Definition resolve_load_plot (filename : string) (NFFT noverlap : Z) (stdin : list string)
  : list output * finished :=
  let '(out2, second) := name_resolution py_float strptime filename stdin in
  match second with
  | Resolved name time_str freq_str utc_time base_freq_mhz _ =>
      let '(out3, loaded) := data_acquisition read filename in
      let printed := (Setup <$> out2) ++ (Core <$> out3) in
      match loaded with
      | Loaded sample_rate (Mono linear_array) =>
          let g := {| name := name; freq_str := freq_str |} in
          let '(out4, r) :=
            plot_fft_freq_chart py_float spectrogram g NFFT noverlap sample_rate
              linear_array utc_time base_freq_mhz in
          (printed ++ (Core <$> out4),
           Plotted g NFFT noverlap sample_rate linear_array utc_time base_freq_mhz r)
      | Loaded _ (Multi _) => (printed, Crashed OtherError)
      | NoneNone => (printed, PlottedWithoutData)
      | MinusOne => (printed, Crashed TypeError)
      end
  | ResolutionRaised e => (Setup <$> out2, Crashed e)
  | ResolutionEndOfInput => (Setup <$> out2, OutOfInput)
  end.

(** Lines 139 to 231. *)
Definition script (stdin : list string) : list output * finished :=
  let files := wav_files listdir in
  let '(out0, chosen) := choose_file py_int_str files stdin in
  let printed := Setup <$> (PrintFileList files :: out0) in
  match chosen with
  | Chosen filename stdin =>
      let '(out1, first) := name_resolution py_float strptime filename stdin in
      let printed := printed ++ (Setup <$> out1) in
      match first with
      | Resolved _ _ _ _ _ stdin =>
          let '(out5, selected) := select_parameters py_float stdin in
          let printed := printed ++ [Setup PrintPresets] ++ (Core <$> out5) in
          match selected with
          | Selected NFFT noverlap stdin =>
              let '(out, r) := resolve_load_plot filename NFFT noverlap stdin in
              (printed ++ out, r)
          | EndOfInput => (printed, OutOfInput)
          end
      | ResolutionRaised e => (printed, Crashed e)
      | ResolutionEndOfInput => (printed, OutOfInput)
      end
  | ChoiceRaised e => (printed, Crashed e)
  | ChoiceEndOfInput => (printed, OutOfInput)
  end.

End Script.

(** ** More library stand-ins for the worked examples *)

Definition is_leap (year : Z) : bool :=
  ((year mod 4 =? 0) && negb (year mod 100 =? 0)) || (year mod 400 =? 0).

Definition days_in_month (year month : Z) : Z :=
  if month =? 2 then (if is_leap year then 29 else 28)
  else if (month =? 4) || (month =? 6) || (month =? 9) || (month =? 11) then 30
  else 31.

(** Days from 1970-01-01 to the given day of the proleptic Gregorian
    calendar. *)
Definition days_from_civil (year month day : Z) : Z :=
  let y := if month <=? 2 then year - 1 else year in
  let era := y / 400 in
  let yoe := y - era * 400 in
  let mp := (month + 9) mod 12 in
  let doy := (153 * mp + 2) / 5 + day - 1 in
  let doe := yoe * 365 + yoe / 4 - yoe / 100 + doy in
  era * 146097 + doe - 719468.

Definition number_at (start len : nat) (s : string) : option Z :=
  digits_value (String.substring start len s) 0.

(** [datetime.strptime(s, "%Y%m%d_%H%M%SZ")] on the sixteen characters the
    pattern of the file name lets through: eight digits, an underscore, six
    digits and [Z].  Fields outside the calendar or the clock are a
    [ValueError]. *)
Definition strptime_utc (s : string) : exc datetime :=
  match number_at 0 4 s, number_at 4 2 s, number_at 6 2 s,
        number_at 9 2 s, number_at 11 2 s, number_at 13 2 s with
  | Some year, Some month, Some day, Some hour, Some minute, Some second =>
      if (String.length s =? 16)%nat
         && (1 <=? year) && (1 <=? month) && (month <=? 12)
         && (1 <=? day) && (day <=? days_in_month year month)
         && (hour <=? 23) && (minute <=? 59) && (second <=? 59)
      then Ok ((days_from_civil year month day * 86400
                + hour * 3600 + minute * 60 + second) * 1000000)
      else Raise ValueError
  | _, _, _, _, _, _ => Raise ValueError
  end.

(** [int] on an optional minus sign and ASCII decimal digits. *)
Definition int_of_digits (s : string) : exc Z :=
  match s with
  | EmptyString => Raise ValueError
  | String "-" r =>
      match r with
      | EmptyString => Raise ValueError
      | String _ _ =>
          match digits_value r 0 with
          | Some n => Ok (- n)
          | None => Raise ValueError
          end
      end
  | String _ _ =>
      match digits_value s 0 with
      | Some n => Ok n
      | None => Raise ValueError
      end
  end.

(** Every character of [s] satisfies [p]. *)
Fixpoint all_chars (p : ascii -> bool) (s : string) : bool :=
  match s with
  | EmptyString => true
  | String c r => p c && all_chars p r
  end.

(** A directory with one recording, the reader that finds four-hertz
    samples in it, and the script's view of it. *)
Definition example_dir : list string :=
  ["notes.txt"; "ISS_20240101_000000Z_137100000Hz_AF.wav"].

Definition example_reader (filename : string) : exc (Z * ndarray) :=
  if String.eqb filename "ISS_20240101_000000Z_137100000Hz_AF.wav"
  then Ok (4, Mono burst_samples)
  else Raise IOError.

Definition example_globals : globals :=
  {| name := "ISS"; freq_str := "137100000Hz" |}.

Definition example_plot : plot_result :=
  Eval vm_compute in
    (plot_fft_freq_chart float_of_digits (answering burst_then_silence) example_globals
       16384 12000 4 burst_samples new_year_2024 (137100000 # 1000000)).2.

(** A reader for which every file is unreadable. *)
Definition unreadable (filename : string) : exc (Z * ndarray) := Raise IOError.

(** * Properties *)

(** ** Numbers *)

Lemma Qltb_lt (x y : Q) : Qltb x y = true <-> (x < y)%Q.
Proof.
  unfold Qltb. rewrite Bool.negb_true_iff. split; intros H.
  - apply Qnot_le_lt. intros Hle. apply Qle_bool_iff in Hle. congruence.
  - destruct (Qle_bool y x) eqn:E; [|reflexivity].
    apply Qle_bool_iff in E. exfalso. exact (Qlt_not_le _ _ H E).
Qed.

Lemma ln10_pos : (0 < ln 10)%R.
Proof. rewrite <- ln_1. apply ln_increasing; lra. Qed.

(** The rational test behind [db_gtb] is the comparison of
    [10 * log10 x] with the threshold over the reals. *)
Lemma db_gtb_real (x : Q) (t : Z) :
  (0 < x)%Q ->
  db_gtb (Db x) t = true <-> (IZR t < 10 * log10 (Q2R x))%R.
Proof.
  intros Hx. cbn [db_gtb].
  assert (HxR : (0 < Q2R x)%R) by (replace 0%R with (Q2R 0) by lra; now apply Qlt_Rlt).
  assert (H10 : Q2R (10 # 1) = 10%R) by (unfold Q2R; simpl; lra).
  pose proof ln10_pos as Hl.
  rewrite Qltb_lt.
  assert (E1 : Q2R ((10 # 1) ^ t) = Rpower 10 (IZR t)).
  { rewrite RMicromega.Q2RpowerRZ by (left; intros E; discriminate E).
    rewrite H10. apply powerRZ_Rpower. lra. }
  assert (E2 : Q2R (x ^ 10) = Rpower (Q2R x) 10).
  { rewrite RMicromega.Q2RpowerRZ by (right; lia).
    apply (powerRZ_Rpower (Q2R x) 10%Z HxR). }
  assert (E3 : (10 * log10 (Q2R x) * ln 10 = 10 * ln (Q2R x))%R)
    by (unfold log10; field; lra).
  split; intros H.
  - apply Qlt_Rlt in H. rewrite E1, E2 in H. unfold Rpower in H.
    apply exp_lt_inv in H.
    apply Rmult_lt_reg_r with (ln 10); [exact Hl|]. rewrite E3. exact H.
  - apply Rlt_Qlt. rewrite E1, E2. unfold Rpower. apply exp_increasing.
    apply Rmult_lt_compat_r with (r := ln 10) in H; [|exact Hl].
    rewrite E3 in H. exact H.
Qed.

Lemma ten_log10_pos (x : Q) : (0 < x)%Q -> ten_log10 x = Db x.
Proof.
  intros H. unfold ten_log10. now apply Qltb_lt in H as ->.
Qed.

Lemma ten_log10_nonpos (x : Q) : ~ (0 < x)%Q -> is_finite (ten_log10 x) = false.
Proof.
  intros H. unfold ten_log10.
  destruct (Qltb 0 x) eqn:E; [apply Qltb_lt in E; contradiction|].
  now destruct (Qeq_bool x 0).
Qed.

(** ** Indexing and scanning *)

Lemma getitem_in_range {A : Type} (a : list A) (i : nat) (x : A) :
  a !! i = Some x -> getitem a (Z.of_nat i) = Ok x.
Proof.
  intros H. pose proof (lookup_lt_Some _ _ _ H) as Hlt.
  unfold getitem.
  destruct (Z.of_nat i <? 0) eqn:E; [lia|].
  replace ((0 <=? Z.of_nat i) && (Z.of_nat i <? Z.of_nat (length a))) with true
    by (symmetry; apply andb_true_iff; split; lia).
  now rewrite Nat2Z.id, H.
Qed.

Lemma max_bool_true (b : list bool) : max_bool b = true <-> true ∈ b.
Proof.
  induction b as [|x b IH]; cbn.
  - split; [discriminate|]. intros H. inversion H.
  - rewrite orb_true_iff, IH, elem_of_cons. destruct x; intuition congruence.
Qed.

Lemma max_bool_false (b : list bool) : max_bool b = false <-> Forall (eq false) b.
Proof.
  induction b as [|x b IH]; cbn.
  - split; [constructor|reflexivity].
  - rewrite orb_false_iff, IH, Forall_cons. destruct x; intuition congruence.
Qed.

(** Scanning for [true] stops at the first one. *)
Lemma index_of_first (b : list bool) :
  true ∈ b ->
  b !! index_of true b = Some true /\
  forall k, (k < index_of true b)%nat -> b !! k = Some false.
Proof.
  induction b as [|x b IH]; intros H.
  - inversion H.
  - destruct x; cbn.
    + split; [reflexivity|]. intros k Hk. lia.
    + apply elem_of_cons in H as [H|H]; [discriminate|].
      destruct (IH H) as [IH1 IH2]. split; [exact IH1|].
      intros [|k] Hk; [reflexivity|]. cbn. apply IH2. lia.
Qed.

(** With no [true] at all the maximum is [false] and its first index is 0. *)
Lemma np_argmax_all_false (b : list bool) :
  b <> [] -> Forall (eq false) b -> np_argmax b = Ok 0.
Proof.
  intros Hne Hall. destruct b as [|x b]; [congruence|].
  unfold np_argmax. apply max_bool_false in Hall as Hm. rewrite Hm.
  apply Forall_cons in Hall as [<- _]. reflexivity.
Qed.

Lemma np_argmax_first (b : list bool) :
  true ∈ b ->
  exists i, np_argmax b = Ok (Z.of_nat i) /\ b !! i = Some true /\
            forall k, (k < i)%nat -> b !! k = Some false.
Proof.
  intros H. exists (index_of true b).
  destruct (index_of_first b H) as [H1 H2]. split; [|split; assumption].
  destruct b as [|x b]; [inversion H|].
  unfold np_argmax. now apply max_bool_true in H as ->.
Qed.

(** Scanning the reversed array finds the last [true] of the array. *)
Lemma np_argmax_reverse_last (b : list bool) :
  true ∈ b ->
  exists j r, np_argmax (reverse b) = Ok (Z.of_nat r) /\
              (j + r + 1 = length b)%nat /\ b !! j = Some true /\
              forall k, (j < k)%nat -> (k < length b)%nat -> b !! k = Some false.
Proof.
  intros H.
  assert (Hr : true ∈ reverse b) by now apply elem_of_reverse.
  destruct (np_argmax_first _ Hr) as (r & Ha & Ht & Hf).
  pose proof (lookup_lt_Some _ _ _ Ht) as Hlt. rewrite length_reverse in Hlt.
  exists (length b - S r)%nat, r. split; [exact Ha|]. split; [lia|].
  split.
  - rewrite <- Ht. symmetry. now apply reverse_lookup.
  - intros k Hjk Hk.
    specialize (Hf (length b - S k)%nat ltac:(lia)).
    rewrite reverse_lookup in Hf by lia.
    replace (length b - S (length b - S k))%nat with k in Hf by lia. exact Hf.
Qed.

(** ** Row maxima *)

Lemma np_max_nonempty (row : list Q) : row <> [] -> np_max row = Ok (row_max row).
Proof. destruct row; [congruence|reflexivity]. Qed.

Lemma np_max_axis1_rows (Pxx : list (list Q)) :
  Forall (fun row => row <> []) Pxx -> np_max_axis1 Pxx = Ok (row_max <$> Pxx).
Proof.
  unfold np_max_axis1. induction 1 as [|row Pxx Hrow _ IH]; [reflexivity|].
  cbn [traverse]. rewrite (np_max_nonempty _ Hrow). cbn [bind]. rewrite IH.
  reflexivity.
Qed.

Lemma above_threshold_rows (Pxx : list (list Q)) :
  Forall (fun row => row <> []) Pxx ->
  exists max_db, max_db_per_freq Pxx = Ok max_db /\
                 above_threshold max_db = row_above <$> Pxx.
Proof.
  intros H. unfold max_db_per_freq. rewrite (np_max_axis1_rows _ H). cbn [bind].
  eexists. split; [reflexivity|].
  unfold above_threshold. rewrite <- !list_fmap_compose.
  apply Forall_fmap_ext_1. eapply Forall_impl; [exact H|].
  intros row Hrow. cbn. unfold row_above. now rewrite (np_max_nonempty _ Hrow).
Qed.

Lemma Qmaxb_cases (x y : Q) :
  (Qmaxb x y = y /\ (x <= y)%Q) \/ (Qmaxb x y = x /\ (y <= x)%Q).
Proof.
  unfold Qmaxb. destruct (Qle_bool x y) eqn:E.
  - left. split; [reflexivity|]. now apply Qle_bool_iff.
  - right. split; [reflexivity|]. apply Qlt_le_weak, Qnot_le_lt.
    intros H. apply Qle_bool_iff in H. congruence.
Qed.

Lemma foldl_Qmaxb_is_max (xs : list Q) (x : Q) : is_max (foldl Qmaxb x xs) (x :: xs).
Proof.
  revert x. induction xs as [|y xs IH]; intros x; cbn [foldl].
  - split; [left|]. intros z Hz. apply list_elem_of_singleton in Hz as ->. apply Qle_refl.
  - destruct (IH (Qmaxb x y)) as [Hin Hge]. split.
    + apply elem_of_cons in Hin as [->|Hin].
      * destruct (Qmaxb_cases x y) as [[-> _]|[-> _]]; [right; left|left].
      * right. now right.
    + intros z Hz.
      assert (Hm : (Qmaxb x y <= foldl Qmaxb (Qmaxb x y) xs)%Q) by (apply Hge; left).
      apply elem_of_cons in Hz as [->|Hz]; [|apply elem_of_cons in Hz as [->|Hz]].
      * eapply Qle_trans; [|exact Hm].
        destruct (Qmaxb_cases x y) as [[-> H]|[-> _]]; [exact H|apply Qle_refl].
      * eapply Qle_trans; [|exact Hm].
        destruct (Qmaxb_cases x y) as [[-> _]|[-> H]]; [apply Qle_refl|exact H].
      * apply Hge. now right.
Qed.

(** [np.max] of a row is its greatest value. *)
Lemma row_max_is_max (row : list Q) : row <> [] -> is_max (row_max row) row.
Proof. destruct row as [|x xs]; [congruence|]. intros _. apply foldl_Qmaxb_is_max. Qed.

Lemma is_max_unique (m m' : Q) (row : list Q) : is_max m row -> is_max m' row -> (m == m')%Q.
Proof. intros [H1 H2] [H3 H4]. apply Qle_antisym; auto. Qed.


Lemma row_above_exceeds (row : list Q) :
  row <> [] -> row_above row = true <-> row_exceeds row.
Proof.
  intros Hne. unfold row_above, row_exceeds. rewrite (np_max_nonempty _ Hne).
  pose proof (row_max_is_max _ Hne) as Hmax. split.
  - intros H. exists (row_max row). split; [exact Hmax|].
    destruct (Qlt_le_dec 0 (row_max row + epsilon)) as [Hp|Hn].
    + split; [exact Hp|]. rewrite (ten_log10_pos _ Hp) in H.
      now apply db_gtb_real in H.
    + apply Qle_not_lt in Hn. apply ten_log10_nonpos in Hn.
      destruct (ten_log10 (row_max row + epsilon)); cbn in *; congruence.
  - intros (m & Hm & Hp & H).
    assert (E : (m + epsilon == row_max row + epsilon)%Q)
      by (rewrite (is_max_unique _ _ _ Hm Hmax); reflexivity).
    rewrite E in Hp. rewrite (Qeq_eqR _ _ E) in H.
    rewrite (ten_log10_pos _ Hp). now apply db_gtb_real.
Qed.

(** ** Range detection *)





(** C1.  What the code does on a surface in which no frequency row exceeds
    the threshold: both scans find nothing, [np.argmax] answers 0 for each,
    and the function returns the first and the last frequency of the array
    as if they were a detected range.  It does not fail. *)
Theorem detect_without_signal_returns_whole_range
    (freqs_array : list Q) (Pxx : list (list Q)) (columns : nat) (lowest highest : Q) :
  length Pxx = length freqs_array ->
  rectangular columns Pxx ->
  (0 < columns)%nat ->
  Forall (fun row => ~ row_exceeds row) Pxx ->
  head freqs_array = Some lowest ->
  last freqs_array = Some highest ->
  detect_valid_frequency_range freqs_array Pxx
    = ([PrintValidRange lowest highest], Some (lowest, highest)).
Proof.
  intros Hlen Hrect Hc Hnone Hhead Hlast.
  assert (Hne : Forall (fun row => row <> []) Pxx).
  { eapply Forall_impl; [exact Hrect|]. intros row Hrow ->. cbn in Hrow. lia. }
  destruct (above_threshold_rows _ Hne) as (max_db & Hdb & Habove).
  set (flags := row_above <$> Pxx) in *.
  assert (Hfalse : Forall (eq false) flags).
  { unfold flags. apply Forall_fmap. apply Forall_forall. intros row Hin. cbn.
    rewrite Forall_forall in Hnone, Hne.
    destruct (row_above row) eqn:E; [|reflexivity].
    apply row_above_exceeds in E; [|now apply Hne]. now apply Hnone in E. }
  assert (Hflags : flags <> []).
  { unfold flags. destruct Pxx; [|discriminate].
    destruct freqs_array; [discriminate|]. cbn in Hlen. lia. }
  rewrite head_lookup in Hhead. rewrite last_lookup in Hlast.
  unfold detect_valid_frequency_range, detect_body.
  rewrite Hdb. cbn [bind]. rewrite Habove.
  rewrite (np_argmax_all_false _ Hflags Hfalse). cbn [bind].
  pose proof (getitem_in_range _ 0%nat _ Hhead) as Hfirst.
  change (Z.of_nat 0) with 0 in Hfirst. rewrite Hfirst. cbn [bind].
  unfold above_threshold in *. rewrite fmap_reverse, Habove.
  rewrite np_argmax_all_false.
  - cbn [bind].
    replace (Z.of_nat (length freqs_array) - 0 - 1)
      with (Z.of_nat (Nat.pred (length freqs_array))).
    + now rewrite (getitem_in_range _ _ _ Hlast).
    + apply lookup_lt_Some in Hhead. lia.
  - intros E. apply Hflags. apply (f_equal reverse) in E.
    now rewrite reverse_involutive in E.
  - now apply Forall_reverse.
Qed.

Lemma detect_without_signal_example :
  detect_valid_frequency_range [0; 1; 2]%Q [[0]; [0]; [0]]%Q
    = ([PrintValidRange 0 2], Some (0%Q, 2%Q)).
Proof.
  apply (detect_without_signal_returns_whole_range _ _ 1%nat).
  - reflexivity.
  - repeat constructor.
  - lia.
  - repeat constructor; intros H; apply row_above_exceeds in H; discriminate.
  - reflexivity.
  - reflexivity.
Defined.

(** ** Axis calibration *)

(** What a view that was shown is made of. *)
Lemma display_Ok (py_float : string -> exc Q) (g : globals)
    (freqs_array times : list Q) (Pxx : list (list Q))
    (utc_time : datetime) (base_freq_mhz : Q) (range : option (Q * Q)) (v : RenderedView) :
  display py_float g (freqs_array, times, Pxx) utc_time base_freq_mhz range = Ok v ->
  exists (min_freq max_freq t0 base_freq_hz : Q),
    range = Some (min_freq, max_freq) /\
    length Pxx = length freqs_array /\
    np_min times = Ok t0 /\
    py_float (drop_last2 (freq_str g)) = Ok base_freq_hz /\
    log_spec v
      = (fun row : list Q => ten_log10 <$> row)
          <$> select (in_range min_freq max_freq freqs_array) Pxx /\
    time_array v
      = (utc_time + timedelta_seconds t0)
          :: ((fun sec => utc_time + timedelta_seconds t0 + timedelta_seconds sec) <$> times) /\
    freqs_array_display v
      = (fun f => ((base_freq_hz + f) / 1000000)%Q)
          <$> select (in_range min_freq max_freq freqs_array) freqs_array /\
    xlabel v = utc_time + timedelta_seconds t0 /\
    ylabel v = base_freq_mhz /\
    select (in_range min_freq max_freq freqs_array) freqs_array <> [].
Proof.
  unfold display. intros H.
  destruct range as [[min_freq max_freq]|]; [|discriminate]. cbn [unpack bind] in H.
  unfold bool_index in H at 1.
  destruct (length (in_range min_freq max_freq freqs_array) =? length freqs_array)%nat;
    [|discriminate].
  cbn [bind] in H.
  unfold bool_index in H.
  destruct (length (in_range min_freq max_freq freqs_array) =? length Pxx)%nat eqn:El;
    [|discriminate].
  cbn [bind] in H.
  destruct (np_min times) as [t0|]; [|discriminate]. cbn [bind] in H.
  destruct (py_float (drop_last2 (freq_str g))) as [base|]; [|discriminate].
  cbn [bind] in H.
  destruct (min_datetime _) as [lo|]; [|discriminate]. cbn [bind] in H.
  destruct (max_datetime _) as [hi|]; [|discriminate]. cbn [bind] in H.
  destruct (np_min _) as [bottom|] eqn:Eb; [|discriminate]. cbn [bind] in H.
  destruct (np_max _) as [top|]; [|discriminate]. cbn [bind] in H.
  injection H as <-. exists min_freq, max_freq, t0, base. cbn.
  apply Nat.eqb_eq in El. unfold in_range in El. rewrite length_fmap in El.
  repeat split; auto.
  intros E. rewrite E in Eb. discriminate Eb.
Qed.

(** A view is shown only after the transform answered with a surface, and
    it is the view [display] builds from that surface. *)
Lemma plot_Shown (py_float : string -> exc Q)
    (spectrogram : list Z -> Z -> Z -> Z -> exc surface) (g : globals)
    (NFFT noverlap sample_rate : Z) (linear_array : list Z)
    (utc_time : datetime) (base_freq_mhz : Q) (v : RenderedView) :
  (plot_fft_freq_chart py_float spectrogram g NFFT noverlap sample_rate linear_array
     utc_time base_freq_mhz).2 = Shown v ->
  exists freqs_array times Pxx,
    spectrogram linear_array sample_rate NFFT noverlap = Ok (freqs_array, times, Pxx) /\
    display py_float g (freqs_array, times, Pxx) utc_time base_freq_mhz
      (detect_valid_frequency_range freqs_array Pxx).2 = Ok v.
Proof.
  unfold plot_fft_freq_chart. intros H.
  destruct (spectrogram _ _ _ _) as [[[freqs_array times] Pxx]|e].
  - exists freqs_array, times, Pxx. split; [reflexivity|].
    destruct (detect_valid_frequency_range freqs_array Pxx) as [out range]. cbn [snd].
    destruct (display _ _ _ _ _ _) as [v'|e].
    + cbn in H. now injection H as ->.
    + destruct e; discriminate H.
  - destruct e; discriminate H.
Qed.

Lemma Qminb_cases (x y : Q) :
  (Qminb x y = y /\ (y <= x)%Q) \/ (Qminb x y = x /\ (x <= y)%Q).
Proof.
  unfold Qminb. destruct (Qle_bool y x) eqn:E.
  - left. split; [reflexivity|]. now apply Qle_bool_iff.
  - right. split; [reflexivity|]. apply Qlt_le_weak, Qnot_le_lt.
    intros H. apply Qle_bool_iff in H. congruence.
Qed.

Lemma foldl_Qminb_is_min (xs : list Q) (x : Q) :
  foldl Qminb x xs ∈ x :: xs /\ forall z, z ∈ x :: xs -> (foldl Qminb x xs <= z)%Q.
Proof.
  revert x. induction xs as [|y xs IH]; intros x; cbn [foldl].
  - split; [left|]. intros z Hz. apply list_elem_of_singleton in Hz as ->. apply Qle_refl.
  - destruct (IH (Qminb x y)) as [Hin Hle]. split.
    + apply elem_of_cons in Hin as [->|Hin].
      * destruct (Qminb_cases x y) as [[-> _]|[-> _]]; [right; left|left].
      * right. now right.
    + intros z Hz.
      assert (Hm : (foldl Qminb (Qminb x y) xs <= Qminb x y)%Q) by (apply Hle; left).
      apply elem_of_cons in Hz as [->|Hz]; [|apply elem_of_cons in Hz as [->|Hz]].
      * eapply Qle_trans; [exact Hm|].
        destruct (Qminb_cases x y) as [[-> H]|[-> _]]; [exact H|apply Qle_refl].
      * eapply Qle_trans; [exact Hm|].
        destruct (Qminb_cases x y) as [[-> _]|[-> H]]; [apply Qle_refl|exact H].
      * apply Hle. now right.
Qed.

(** [time_array.min()] is the smallest relative time. *)
Lemma np_min_is_min (l : list Q) (m : Q) :
  np_min l = Ok m -> m ∈ l /\ forall z, z ∈ l -> (m <= z)%Q.
Proof.
  destruct l as [|x xs]; [discriminate|]. intros [= <-]. apply foldl_Qminb_is_min.
Qed.

(** C2, as the code has it.  The function first moves the caller's
    timestamp by the smallest relative time, [start_time = utc_time +
    timedelta(seconds=time_array.min())].  Every time column is then placed
    at [start_time] plus its relative time, and [start_time] itself is put
    in front of the axis: the first entry is [start_time], which is the
    caller's timestamp only if the smallest relative time rounds to zero
    microseconds. *)
Theorem time_axis_starts_at_shifted_start_time
    (py_float : string -> exc Q) (spectrogram : list Z -> Z -> Z -> Z -> exc surface)
    (g : globals) (NFFT noverlap sample_rate : Z) (linear_array : list Z)
    (utc_time : datetime) (base_freq_mhz : Q) (v : RenderedView) :
  (plot_fft_freq_chart py_float spectrogram g NFFT noverlap sample_rate linear_array
     utc_time base_freq_mhz).2 = Shown v ->
  exists (freqs_array times : list Q) (Pxx : list (list Q)) (t0 : Q),
    spectrogram linear_array sample_rate NFFT noverlap = Ok (freqs_array, times, Pxx) /\
    t0 ∈ times /\ (forall t, t ∈ times -> (t0 <= t)%Q) /\
    xlabel v = utc_time + timedelta_seconds t0 /\
    head (time_array v) = Some (utc_time + timedelta_seconds t0) /\
    length (time_array v) = S (length times) /\
    (forall i sec, times !! i = Some sec ->
       time_array v !! S i
         = Some (utc_time + timedelta_seconds t0 + timedelta_seconds sec)) /\
    (head (time_array v) = Some utc_time <-> timedelta_seconds t0 = 0).
Proof.
  intros H. apply plot_Shown in H as (freqs_array & times & Pxx & HT & Hd).
  apply display_Ok in Hd
    as (min_freq & max_freq & t0 & base & _ & _ & Hmin & _ & _ & Htime & _ & Hx & _).
  apply np_min_is_min in Hmin as [Hin Hle].
  exists freqs_array, times, Pxx, t0. rewrite Htime, Hx. cbn [head length].
  repeat split; auto.
  - now rewrite length_fmap.
  - intros i sec Hi. rewrite lookup_cons, list_lookup_fmap, Hi. reflexivity.
  - intros [= E]. lia.
  - intros E. f_equal. lia.
Qed.

Lemma time_axis_example :
  exists (freqs_array times : list Q) (Pxx : list (list Q)) (t0 : Q),
    answering burst_then_silence burst_samples 4 4 0 = Ok (freqs_array, times, Pxx) /\
    t0 ∈ times /\ (forall t, t ∈ times -> (t0 <= t)%Q) /\
    xlabel burst_view = new_year_2024 + timedelta_seconds t0 /\
    head (time_array burst_view) = Some (new_year_2024 + timedelta_seconds t0) /\
    length (time_array burst_view) = S (length times) /\
    (forall i sec, times !! i = Some sec ->
       time_array burst_view !! S i
         = Some (new_year_2024 + timedelta_seconds t0 + timedelta_seconds sec)) /\
    (head (time_array burst_view) = Some new_year_2024 <-> timedelta_seconds t0 = 0).
Proof.
  apply (time_axis_starts_at_shifted_start_time float_of_digits
           (answering burst_then_silence) station 4 0 4 burst_samples
           new_year_2024 (1371 # 10)).
  vm_compute. reflexivity.
Defined.

(** C2 fails as stated.  The caller's timestamp is 2024-01-01T00:00:00Z and
    the two time columns lie 0.5 s and 1.5 s into the recording.  The time
    axis does not begin at the timestamp but half a second later, and the
    columns are placed 1 s and 2 s after the timestamp, not 0.5 s and
    1.5 s. *)
Lemma time_axis_counterexample :
  exists v : RenderedView,
    (plot_fft_freq_chart float_of_digits (answering burst_then_silence) station 4 0 4
       burst_samples new_year_2024 (1371 # 10)).2 = Shown v /\
    burst_then_silence.1.2 = [1 # 2; 3 # 2]%Q /\
    timedelta_seconds (1 # 2) = 500000 /\
    timedelta_seconds (3 # 2) = 1500000 /\
    time_array v
      = [new_year_2024 + 500000; new_year_2024 + 1000000; new_year_2024 + 2000000] /\
    head (time_array v) <> Some new_year_2024 /\
    time_array v !! 1%nat <> Some (new_year_2024 + timedelta_seconds (1 # 2)) /\
    time_array v !! 2%nat <> Some (new_year_2024 + timedelta_seconds (3 # 2)).
Proof.
  eexists. split; [vm_compute; reflexivity|].
  repeat split; try reflexivity; cbn; vm_compute; discriminate.
Qed.

Lemma select_length {A B : Type} (mask : list bool) (a : list A) (b : list B) :
  length a = length b -> length (select mask a) = length (select mask b).
Proof.
  revert a b. induction mask as [|m mask IH]; intros [|x a] [|y b] H;
    try reflexivity; try discriminate.
  injection H as H. cbn. destruct m; cbn; auto.
Qed.

Lemma select_Forall {A : Type} (P : A -> Prop) (mask : list bool) (a : list A) :
  Forall P a -> Forall P (select mask a).
Proof.
  revert a. induction mask as [|m mask IH]; intros [|x a] H; cbn; try constructor.
  apply Forall_cons in H as [Hx Ha]. destruct m; [constructor|]; auto.
Qed.

(** C5, as the code has it.  The amplitude grid keeps one column per
    relative time and one row per retained frequency, and the frequency axis
    has as many entries as the grid has rows; the time axis is one entry
    longer than the grid has columns, because [start_time] is inserted in
    front of the calibrated times. *)
Theorem time_axis_one_longer_than_grid
    (py_float : string -> exc Q) (spectrogram : list Z -> Z -> Z -> Z -> exc surface)
    (g : globals) (NFFT noverlap sample_rate : Z) (linear_array : list Z)
    (utc_time : datetime) (base_freq_mhz : Q)
    (freqs_array times : list Q) (Pxx : list (list Q)) (v : RenderedView) :
  spectrogram linear_array sample_rate NFFT noverlap = Ok (freqs_array, times, Pxx) ->
  surface_wf (freqs_array, times, Pxx) ->
  (plot_fft_freq_chart py_float spectrogram g NFFT noverlap sample_rate linear_array
     utc_time base_freq_mhz).2 = Shown v ->
  log_spec v <> [] /\
  length (freqs_array_display v) = length (log_spec v) /\
  Forall (fun row => length row = length times) (log_spec v) /\
  Forall (fun row => length (time_array v) = S (length row)) (log_spec v).
Proof.
  intros HT [Hrows Hrect] H.
  apply plot_Shown in H as (freqs_array' & times' & Pxx' & HT' & Hd).
  rewrite HT in HT'. injection HT' as <- <- <-.
  apply display_Ok in Hd
    as (min_freq & max_freq & t0 & base & _ & _ & _ & _ & Hlog & Htime & Hfreq & _ & _ & Hne).
  set (mask := in_range min_freq max_freq freqs_array) in *.
  assert (Hlen : length (select mask freqs_array) = length (select mask Pxx))
    by now apply select_length.
  assert (Hcols : Forall (fun row => length row = length times) (log_spec v)).
  { rewrite Hlog. apply Forall_fmap. eapply Forall_impl.
    - apply select_Forall. exact Hrect.
    - intros row Hrow. cbn. now rewrite length_fmap. }
  split; [|split; [|split]].
  - rewrite Hlog. intros E. apply fmap_nil_inv in E.
    rewrite E in Hlen. cbn in Hlen. destruct (select mask freqs_array); [congruence|discriminate].
  - now rewrite Hlog, Hfreq, !length_fmap.
  - exact Hcols.
  - eapply Forall_impl; [exact Hcols|]. intros row Hrow. cbn.
    now rewrite Htime, Hrow; cbn; rewrite length_fmap.
Qed.

Lemma time_axis_one_longer_example :
  log_spec burst_view <> [] /\
  length (freqs_array_display burst_view) = length (log_spec burst_view) /\
  Forall (fun row => length row = length [1 # 2; 3 # 2]%Q) (log_spec burst_view) /\
  Forall (fun row => length (time_array burst_view) = S (length row)) (log_spec burst_view).
Proof.
  apply (time_axis_one_longer_than_grid float_of_digits (answering burst_then_silence)
           station 4 0 4 burst_samples new_year_2024 (1371 # 10)
           [0; 1; 2]%Q [1 # 2; 3 # 2]%Q [[2000; 0]; [50000; 0]; [3000; 0]]%Q).
  - reflexivity.
  - split; [reflexivity|]. repeat constructor.
  - vm_compute. reflexivity.
Defined.

(** C5 fails as stated.  For a surface of three frequencies and two time
    columns the grid handed to [imshow] has rows of two columns, and the
    time axis has three entries. *)
Lemma time_axis_length_counterexample :
  exists v : RenderedView,
    (plot_fft_freq_chart float_of_digits (answering burst_then_silence) station 4 0 4
       burst_samples new_year_2024 (1371 # 10)).2 = Shown v /\
    length <$> log_spec v = [2; 2; 2]%nat /\
    length (time_array v) = 3%nat.
Proof.
  exists burst_view. repeat split; vm_compute; reflexivity.
Qed.

(** The base frequency argument only reaches the label of the axis. *)
Lemma display_base_freq_mhz (py_float : string -> exc Q) (g : globals) (s : surface)
    (utc_time : datetime) (b1 b2 : Q) (range : option (Q * Q)) :
  match display py_float g s utc_time b1 range, display py_float g s utc_time b2 range with
  | Ok v1, Ok v2 =>
      freqs_array_display v1 = freqs_array_display v2 /\
      log_spec v1 = log_spec v2 /\ time_array v1 = time_array v2 /\
      extent v1 = extent v2 /\ ylabel v1 = b1 /\ ylabel v2 = b2
  | Raise e1, Raise e2 => e1 = e2
  | _, _ => False
  end.
Proof.
  destruct s as [[freqs_array times] Pxx]. unfold display.
  destruct (unpack range) as [[min_freq max_freq]|]; cbn [bind]; [|reflexivity].
  destruct (bool_index freqs_array _); cbn [bind]; [|reflexivity].
  destruct (bool_index Pxx _); cbn [bind]; [|reflexivity].
  destruct (np_min times); cbn [bind]; [|reflexivity].
  destruct (py_float _); cbn [bind]; [|reflexivity].
  destruct (min_datetime _); cbn [bind]; [|reflexivity].
  destruct (max_datetime _); cbn [bind]; [|reflexivity].
  destruct (np_min _); cbn [bind]; [|reflexivity].
  destruct (np_max _); cbn [bind]; [|reflexivity].
  cbn. repeat split; reflexivity.
Qed.

(** C8.  Two calls that differ only in [base_freq_mhz] show the same
    frequency axis (or both show none): the axis is the retained relative
    frequencies moved by the number read from the module-level [freq_str],
    and the argument only ends up in the label. *)
Theorem frequency_axis_ignores_base_freq_mhz
    (py_float : string -> exc Q) (spectrogram : list Z -> Z -> Z -> Z -> exc surface)
    (g : globals) (NFFT noverlap sample_rate : Z) (linear_array : list Z)
    (utc_time : datetime) (b1 b2 : Q) :
  frequency_axis (plot_fft_freq_chart py_float spectrogram g NFFT noverlap sample_rate
                    linear_array utc_time b1)
  = frequency_axis (plot_fft_freq_chart py_float spectrogram g NFFT noverlap sample_rate
                      linear_array utc_time b2) /\
  forall v,
    (plot_fft_freq_chart py_float spectrogram g NFFT noverlap sample_rate
       linear_array utc_time b1).2 = Shown v ->
    exists (base_freq_hz : Q) (kept : list Q),
      py_float (drop_last2 (freq_str g)) = Ok base_freq_hz /\
      freqs_array_display v = (fun f => ((base_freq_hz + f) / 1000000)%Q) <$> kept /\
      ylabel v = b1.
Proof.
  split.
  - unfold frequency_axis, plot_fft_freq_chart.
    destruct (spectrogram _ _ _ _) as [[[freqs_array times] Pxx]|e].
    + destruct (detect_valid_frequency_range freqs_array Pxx) as [out range].
      pose proof (display_base_freq_mhz py_float g (freqs_array, times, Pxx)
                    utc_time b1 b2 range) as H.
      destruct (display _ _ _ _ b1 _) as [v1|e1], (display _ _ _ _ b2 _) as [v2|e2];
        try contradiction.
      * cbn. now destruct H as [-> _].
      * subst e2. now destruct e1.
    + now destruct e.
  - intros v H. apply plot_Shown in H as (freqs_array & times & Pxx & _ & Hd).
    apply display_Ok in Hd
      as (min_freq & max_freq & t0 & base & _ & _ & _ & Hb & _ & _ & Hfreq & _ & Hy & _).
    eauto.
Qed.

(** C3.  The code at a surface whose second time column is digital
    silence: the rows are retained for the power of their first column, and
    the zero of the second column goes through [10 * np.log10] unfloored,
    which gives minus infinity. *)
Theorem zero_power_gives_minus_infinity :
  (plot_fft_freq_chart float_of_digits (answering burst_then_silence) station 4 0 4
     burst_samples new_year_2024 (1371 # 10)).2 = Shown burst_view /\
  log_spec burst_view = [[Db 2000; NegInf]; [Db 50000; NegInf]; [Db 3000; NegInf]] /\
  Forall (Exists (fun d => is_finite d = false)) (log_spec burst_view).
Proof.
  split; [vm_compute; reflexivity|]. split; [reflexivity|].
  repeat (constructor; [apply Exists_cons_tl, Exists_cons_hd; reflexivity|]).
  constructor.
Qed.

(** ** Loading *)

Lemma first_column_frames (frames : list (list Z)) :
  Forall (fun frame => frame <> []) frames ->
  exists samples,
    traverse (fun frame => getitem frame 0) frames = Ok samples /\
    length samples = length frames /\
    forall i frame, frames !! i = Some frame -> samples !! i = head frame.
Proof.
  induction 1 as [|frame frames Hframe _ (samples & IH & Hlen & Hget)].
  - exists []. split; [reflexivity|]. split; [reflexivity|]. intros i frame H. inversion H.
  - destruct frame as [|x frame]; [congruence|].
    exists (x :: samples). cbn [traverse]. rewrite IH. split; [reflexivity|].
    split; [cbn; now rewrite Hlen|].
    intros [|i] frame' H; cbn in *.
    + now injection H as <-.
    + now apply Hget.
Qed.

(** C9.  When the file holds more than one channel the loader keeps, for
    every sample frame, the value of the first channel and nothing of the
    others, says so, and returns the sample rate as read; a single-channel
    array is returned as it was read, without the note. *)
Theorem data_acquisition_keeps_first_channel
    (read : string -> exc (Z * ndarray)) (filename : string)
    (sample_rate : Z) (a : ndarray) (channels : nat) :
  read filename = Ok (sample_rate, a) ->
  (forall frames, a = Multi frames ->
     (1 < channels)%nat /\ Forall (fun frame => length frame = channels) frames) ->
  exists samples,
    (data_acquisition read filename).2 = Loaded sample_rate (Mono samples) /\
    match a with
    | Mono xs => samples = xs /\ (data_acquisition read filename).1 = []
    | Multi frames =>
        length samples = length frames /\
        (forall i frame, frames !! i = Some frame -> samples !! i = head frame) /\
        (data_acquisition read filename).1 = [PrintStereo]
    end.
Proof.
  intros Hread Hshape. unfold data_acquisition. rewrite Hread.
  destruct a as [xs|frames]; cbn [ndim].
  - exists xs. cbn. auto.
  - destruct (Hshape frames eq_refl) as [Hc Hframes].
    assert (Hne : Forall (fun frame => frame <> []) frames).
    { eapply Forall_impl; [exact Hframes|]. intros frame Hlen ->. cbn in Hlen. lia. }
    destruct (first_column_frames _ Hne) as (samples & Hcol & Hlen & Hget).
    exists samples. cbn. unfold first_column. rewrite Hcol. cbn. auto.
Qed.

Lemma data_acquisition_stereo_example :
  exists samples,
    (data_acquisition one_file "ISS_20240101_235959Z_145800000Hz_AF.wav").2
      = Loaded 48000 (Mono samples) /\
    length samples = length stereo_frames /\
    (forall i frame, stereo_frames !! i = Some frame -> samples !! i = head frame) /\
    (data_acquisition one_file "ISS_20240101_235959Z_145800000Hz_AF.wav").1 = [PrintStereo].
Proof.
  apply (data_acquisition_keeps_first_channel one_file
           "ISS_20240101_235959Z_145800000Hz_AF.wav" 48000 (Multi stereo_frames) 2%nat).
  - reflexivity.
  - intros frames [= <-]. split; [lia|]. repeat constructor.
Defined.

Example data_acquisition_stereo_run :
  data_acquisition one_file "ISS_20240101_235959Z_145800000Hz_AF.wav"
    = ([PrintStereo], Loaded 48000 (Mono [5; 7; -9])).
Proof. reflexivity. Qed.

Example data_acquisition_missing_file :
  data_acquisition one_file "nothing.wav" = ([PrintReadError IOError], NoneNone).
Proof. reflexivity. Qed.

(** ** Transform parameters *)

Lemma say_selected (e : event) (r : list event * selection) (out : list event)
    (NFFT noverlap : Z) (rest : list string) :
  say e r = (out, Selected NFFT noverlap rest) ->
  exists out', r = (out', Selected NFFT noverlap rest).
Proof. destruct r as [out' s]. unfold say. cbn. intros [= _ ->]. eauto. Qed.

(** The inner loop only lets a pair through whose overlap is not above the
    window length. *)
Lemma manual_entry_rejects (py_float : string -> exc Q) (n : nat) :
  forall stdin out NFFT noverlap rest,
    (length stdin <= n)%nat ->
    manual_entry py_float stdin = (out, Selected NFFT noverlap rest) ->
    ~ NFFT < noverlap.
Proof.
  induction n as [|n IH]; intros stdin out NFFT noverlap rest Hlen H.
  - destruct stdin; [discriminate H|cbn in Hlen; lia].
  - destruct stdin as [|l1 stdin1]; [discriminate H|]. cbn in Hlen.
    cbn [manual_entry] in H. destruct (py_float l1) as [x|e].
    + destruct stdin1 as [|l2 stdin2]; [discriminate H|]. cbn in Hlen.
      destruct (py_float l2) as [y|e].
      * destruct (py_int x >=? py_int y) eqn:E.
        -- injection H as ? ? ? ?. subst. lia.
        -- apply say_selected in H as [out' H]. apply IH in H; [exact H|lia].
      * apply say_selected in H as [out' H]. apply IH in H; [exact H|lia].
    + apply say_selected in H as [out' H]. apply IH in H; [exact H|lia].
Qed.

Lemma select_parameters_rejects (py_float : string -> exc Q) (stdin : list string) :
  forall out NFFT noverlap rest,
    select_parameters py_float stdin = (out, Selected NFFT noverlap rest) ->
    ~ NFFT < noverlap.
Proof.
  induction stdin as [|choose stdin IH]; intros out NFFT noverlap rest H.
  - discriminate H.
  - cbn [select_parameters] in H.
    destruct (String.eqb choose "0").
    { eapply manual_entry_rejects; [reflexivity|exact H]. }
    destruct (String.eqb choose "1"); [injection H as ? ? ? ?; subst; lia|].
    destruct (String.eqb choose "2"); [injection H as ? ? ? ?; subst; lia|].
    destruct (String.eqb choose "3"); [injection H as ? ? ? ?; subst; lia|].
    apply say_selected in H as [out' H]. eapply IH. exact H.
Qed.



Example select_parameters_run :
  select_parameters float_of_digits ["7"; "0"; "abc"; "10"; "20"; "1024"; "512"; "x"]
    = ([PrintInvalidChoice; PrintNotANumber; PrintOverlapTooLarge],
       Selected 1024 512 ["x"]).
Proof. reflexivity. Qed.

(** ** The engine's segmentation *)

Lemma filter_le_seq_length (m n : nat) :
  length (List.filter (fun k => (k <=? m)%nat) (seq 0 n)) = Nat.min n (S m).
Proof.
  induction n as [|n IH]; [reflexivity|].
  rewrite seq_S, List.filter_app, length_app, IH. cbn [List.filter Nat.add].
  destruct (n <=? m)%nat eqn:E; cbn [length].
  - apply Nat.leb_le in E. lia.
  - apply Nat.leb_gt in E. lia.
Qed.

Lemma one_sided_length (N : nat) :
  (0 < N)%nat ->
  length (List.filter (fun k => (2 * k <=? N)%nat) (seq 0 N)) = S (N / 2).
Proof.
  intros HN.
  rewrite (List.filter_ext _ (fun k => (k <=? N / 2)%nat)).
  - rewrite filter_le_seq_length.
    pose proof (Nat.div_lt N 2 HN ltac:(lia)). lia.
  - intros k. apply eq_true_iff_eq. rewrite !Nat.leb_le.
    pose proof (Nat.div_mod_eq N 2) as Hd.
    pose proof (Nat.mod_upper_bound N 2 ltac:(lia)) as Hm. lia.
Qed.

(** With at least as much fuel as samples the windows are all found: there
    are [(len - N) / step + 1] of them when one fits, and none otherwise. *)
Lemma fit_windows_length (fuel N step : nat) :
  (0 < N)%nat -> (0 < step)%nat ->
  forall samples,
    (length samples <= fuel)%nat ->
    length (Engine.fit_windows fuel N step samples)
    = if (N <=? length samples)%nat then S ((length samples - N) / step) else 0%nat.
Proof.
  intros HN Hstep. induction fuel as [|fuel IH]; intros samples Hfuel.
  - destruct samples; [|cbn in Hfuel; lia]. cbn.
    destruct N; [lia|reflexivity].
  - cbn [Engine.fit_windows].
    destruct (N <=? length samples)%nat eqn:E; [|reflexivity].
    apply Nat.leb_le in E. cbn [length]. f_equal.
    rewrite IH by (rewrite length_drop; lia). rewrite length_drop.
    destruct (N <=? length samples - step)%nat eqn:E'.
    + apply Nat.leb_le in E'.
      replace (length samples - N)%nat with ((length samples - step - N) + 1 * step)%nat by lia.
      rewrite Nat.div_add by lia. lia.
    + apply Nat.leb_gt in E'. rewrite Nat.div_small by lia. reflexivity.
Qed.

(** The [k]-th window is the [N] samples from offset [k * step]. *)
Lemma fit_windows_lookup (fuel N step : nat) :
  (0 < N)%nat ->
  forall samples k w,
    Engine.fit_windows fuel N step samples !! k = Some w ->
    w = take N (drop (k * step) samples) /\ (k * step + N <= length samples)%nat.
Proof.
  intros HN. induction fuel as [|fuel IH]; intros samples k w H; [inversion H|].
  cbn [Engine.fit_windows] in H.
  destruct (N <=? length samples)%nat eqn:E; [|inversion H].
  apply Nat.leb_le in E. destruct k as [|k].
  - injection H as <-. cbn. split; [reflexivity|lia].
  - cbn in H. apply IH in H as [-> Hle]. rewrite length_drop in Hle.
    rewrite drop_drop. split; [f_equal; f_equal; lia|]. lia.
Qed.

(** C7, on the engine as the specification describes it.  For a window
    length and an overlap with [0 <= V < N <= len(samples)] the engine
    answers with [N / 2 + 1] frequencies and
    [(len(samples) - N) / (N - V) + 1] times; with the largest overlap
    [V = N - 1] that is [len(samples) - N + 1], and a window as long as the
    samples gives exactly one time. *)
Theorem engine_axes_lengths (samples : list Z) (sample_rate N V : Z) :
  0 <= V < N ->
  N <= Z.of_nat (length samples) ->
  exists frequencies times,
    Engine.axes samples sample_rate N V = Some (frequencies, times) /\
    Z.of_nat (length frequencies) = N / 2 + 1 /\
    Z.of_nat (length times) = (Z.of_nat (length samples) - N) / (N - V) + 1 /\
    (V = N - 1 -> Z.of_nat (length times) = Z.of_nat (length samples) - N + 1) /\
    (N = Z.of_nat (length samples) -> length times = 1%nat).
Proof.
  intros HV HN. unfold Engine.axes.
  replace ((0 <=? V) && (V <? N) && (N <=? Z.of_nat (length samples))) with true
    by (symmetry; rewrite !andb_true_iff; repeat split; lia).
  eexists _, _. split; [reflexivity|].
  assert (Hf : Z.of_nat (length (Engine.frequencies (Z.to_nat N) sample_rate)) = N / 2 + 1).
  { unfold Engine.frequencies. rewrite length_fmap, one_sided_length by lia.
    rewrite Nat2Z.inj_succ, Nat2Z.inj_div, Z2Nat.id by lia. reflexivity. }
  assert (Ht : Z.of_nat (length (Engine.times (Z.to_nat N) (Z.to_nat V) sample_rate samples))
               = (Z.of_nat (length samples) - N) / (N - V) + 1).
  { unfold Engine.times, Engine.windows. rewrite length_imap.
    rewrite fit_windows_length by lia.
    replace (Z.to_nat N <=? length samples)%nat with true by (symmetry; apply Nat.leb_le; lia).
    rewrite Nat2Z.inj_succ, Nat2Z.inj_div, !Nat2Z.inj_sub, !Z2Nat.id by lia.
    reflexivity. }
  split; [exact Hf|]. split; [exact Ht|]. split.
  - intros ->. rewrite Ht. replace (N - (N - 1)) with 1 by lia. now rewrite Z.div_1_r.
  - intros E. apply Nat2Z.inj. rewrite Ht, E, Z.sub_diag, Z.div_0_l by lia. reflexivity.
Qed.

Lemma engine_axes_lengths_example :
  exists frequencies times,
    Engine.axes [1; 2; 3; 4; 5; 6; 7; 8; 9; 10] 8000 4 2 = Some (frequencies, times) /\
    Z.of_nat (length frequencies) = 4 / 2 + 1 /\
    Z.of_nat (length times)
      = (Z.of_nat (length [1; 2; 3; 4; 5; 6; 7; 8; 9; 10]) - 4) / (4 - 2) + 1 /\
    (2 = 4 - 1 ->
       Z.of_nat (length times) = Z.of_nat (length [1; 2; 3; 4; 5; 6; 7; 8; 9; 10]) - 4 + 1) /\
    (4 = Z.of_nat (length [1; 2; 3; 4; 5; 6; 7; 8; 9; 10]) -> length times = 1%nat).
Proof.
  apply (engine_axes_lengths [1; 2; 3; 4; 5; 6; 7; 8; 9; 10] 8000 4 2).
  - lia.
  - cbn. lia.
Defined.

Example engine_axes_largest_overlap :
  Engine.axes [1; 2; 3; 4; 5] 8000 3 2
    = Some ([0 # 3; 8000 # 3], [0 # 8000; 1 # 8000; 2 # 8000])%Q.
Proof. reflexivity. Qed.

Example engine_axes_single_window :
  Engine.axes [1; 2; 3; 4] 8000 4 1
    = Some ([0 # 4; 8000 # 4; 16000 # 4], [0 # 8000])%Q.
Proof. reflexivity. Qed.

(** ** Detection over shared arrays *)

Lemma lookup_with_new (s : Store.store) (o : Store.object) :
  Store.heap (Store.with_new s o) !! fresh (dom (Store.heap s)) = Some o.
Proof. cbn. apply lookup_insert_eq. Qed.

Lemma preserved_with_new (s : Store.store) (o : Store.object) :
  preserved s (Store.with_new s o).
Proof.
  intros l o' H. cbn. rewrite lookup_insert_ne; [exact H|].
  intros <-. pose proof (is_fresh (dom (Store.heap s))) as Hf.
  apply Hf. apply elem_of_dom. eauto.
Qed.

Lemma preserved_refl (s : Store.store) : preserved s s.
Proof. intros l o H. exact H. Qed.

Lemma preserved_trans (s1 s2 s3 : Store.store) :
  preserved s1 s2 -> preserved s2 s3 -> preserved s1 s3.
Proof. intros H12 H23 l o H. auto. Qed.

Lemma max_axis1_run (s : Store.store) (Pxx : Store.loc) (a : list (list Q)) :
  Store.heap s !! Pxx = Some (Store.Floats2 a) ->
  Store.max_axis1 Pxx s
  = match np_max_axis1 a with
    | Ok m => (Ok (fresh (dom (Store.heap s))), Store.with_new s (Store.Floats m))
    | Raise e => (Raise e, s)
    end.
Proof.
  intros H. unfold Store.max_axis1, Store.bind, Store.load. rewrite H.
  unfold Store.lift. now destruct (np_max_axis1 a).
Qed.

Lemma add_scalar_run (s : Store.store) (x : Store.loc) (a : list Q) (c : Q) :
  Store.heap s !! x = Some (Store.Floats a) ->
  Store.add_scalar x c s
  = (Ok (fresh (dom (Store.heap s))),
     Store.with_new s (Store.Floats ((fun v => (v + c)%Q) <$> a))).
Proof. intros H. unfold Store.add_scalar, Store.bind, Store.load. now rewrite H. Qed.

Lemma ten_log10_of_run (s : Store.store) (x : Store.loc) (a : list Q) :
  Store.heap s !! x = Some (Store.Floats a) ->
  Store.ten_log10_of x s
  = (Ok (fresh (dom (Store.heap s))),
     Store.with_new s (Store.Decibels (ten_log10 <$> a))).
Proof. intros H. unfold Store.ten_log10_of, Store.bind, Store.load. now rewrite H. Qed.

Lemma gt_scalar_run (s : Store.store) (x : Store.loc) (a : list decibel) (t : Z) :
  Store.heap s !! x = Some (Store.Decibels a) ->
  Store.gt_scalar x t s
  = (Ok (fresh (dom (Store.heap s))),
     Store.with_new s (Store.Bools ((fun d => db_gtb d t) <$> a))).
Proof. intros H. unfold Store.gt_scalar, Store.bind, Store.load. now rewrite H. Qed.

Lemma reversed_run (s : Store.store) (x : Store.loc) (a : list decibel) :
  Store.heap s !! x = Some (Store.Decibels a) ->
  Store.reversed x s
  = (Ok (fresh (dom (Store.heap s))), Store.with_new s (Store.Decibels (reverse a))).
Proof. intros H. unfold Store.reversed, Store.bind, Store.load. now rewrite H. Qed.

Lemma argmax_run (s : Store.store) (x : Store.loc) (a : list bool) :
  Store.heap s !! x = Some (Store.Bools a) ->
  Store.argmax x s = (np_argmax a, s).
Proof. intros H. unfold Store.argmax, Store.bind, Store.load. now rewrite H. Qed.

Lemma item_run (s : Store.store) (x : Store.loc) (a : list Q) (i : Z) :
  Store.heap s !! x = Some (Store.Floats a) ->
  Store.item x i s = (getitem a i, s).
Proof. intros H. unfold Store.item, Store.bind, Store.load. now rewrite H. Qed.

Lemma len_run (s : Store.store) (x : Store.loc) (a : list Q) :
  Store.heap s !! x = Some (Store.Floats a) ->
  Store.len x s = (Ok (Z.of_nat (length a)), s).
Proof. intros H. unfold Store.len, Store.bind, Store.load. now rewrite H. Qed.

(** Closes a branch in which a statement raised: the store reached so far
    is the final one. *)
Ltac raised_at P :=
  eexists _, _; split; [reflexivity|]; split; [exact P|]; cbn; split; reflexivity.

(** The statements of the [try] block over the store compute what
    [detect_body] computes on the contents of the two arrays; they build
    new arrays and, when they succeed, print one line. *)
Lemma store_detect_body_run (s : Store.store) (freqs_array Pxx : Store.loc)
    (f : list Q) (p : list (list Q)) :
  Store.heap s !! freqs_array = Some (Store.Floats f) ->
  Store.heap s !! Pxx = Some (Store.Floats2 p) ->
  exists r s',
    Store.detect_body freqs_array Pxx s = (r, s') /\
    preserved s s' /\
    match detect_body f p with
    | Ok (lo, hi) =>
        r = Ok (Some (lo, hi)) /\
        Store.stdout s' = Store.stdout s ++ [PrintValidRange lo hi]
    | Raise e => r = Raise e /\ Store.stdout s' = Store.stdout s
    end.
Proof.
  intros Hf Hp. unfold Store.detect_body, detect_body, max_db_per_freq.
  unfold Store.bind at 1. rewrite (max_axis1_run _ _ _ Hp).
  destruct (np_max_axis1 p) as [m|e]; cbn [bind].
  2: raised_at (preserved_refl s).
  set (max_db := (fun x => ten_log10 (x + epsilon)%Q) <$> m).
  assert (E0 : ten_log10 <$> ((fun v => (v + epsilon)%Q) <$> m) = max_db)
    by (unfold max_db; now rewrite <- list_fmap_compose).
  set (s1 := Store.with_new s (Store.Floats m)).
  assert (P1 : preserved s s1) by apply preserved_with_new.
  unfold Store.bind at 1.
  rewrite (add_scalar_run s1 _ m) by apply lookup_with_new.
  set (s2 := Store.with_new s1 _).
  assert (P2 : preserved s1 s2) by apply preserved_with_new.
  unfold Store.bind at 1.
  rewrite (ten_log10_of_run s2 _ ((fun v => (v + epsilon)%Q) <$> m)) by apply lookup_with_new.
  rewrite E0.
  set (l3 := fresh (dom (Store.heap s2))).
  set (s3 := Store.with_new s2 _).
  assert (P3 : preserved s2 s3) by apply preserved_with_new.
  assert (H3 : Store.heap s3 !! l3 = Some (Store.Decibels max_db))
    by apply lookup_with_new.
  unfold Store.bind at 1. rewrite (gt_scalar_run s3 _ _ _ H3).
  change ((fun d => db_gtb d threshold_db) <$> max_db) with (above_threshold max_db).
  set (s4 := Store.with_new s3 _).
  assert (P4 : preserved s3 s4) by apply preserved_with_new.
  unfold Store.bind at 1. rewrite (argmax_run s4 _ _ (lookup_with_new _ _)).
  assert (P04 : preserved s s4) by eauto using preserved_trans.
  destruct (np_argmax (above_threshold max_db)) as [i|e]; cbn [bind].
  2: raised_at P04.
  unfold Store.bind at 1. rewrite (item_run s4 _ f) by (apply P04; exact Hf).
  destruct (getitem f i) as [lo|e]; cbn [bind].
  2: raised_at P04.
  unfold Store.bind at 1. rewrite (len_run s4 _ f) by (apply P04; exact Hf).
  unfold Store.bind at 1. rewrite (reversed_run s4 l3 _ (P4 _ _ H3)).
  set (s5 := Store.with_new s4 _).
  assert (P5 : preserved s4 s5) by apply preserved_with_new.
  unfold Store.bind at 1. rewrite (gt_scalar_run s5 _ _ _ (lookup_with_new _ _)).
  change ((fun d => db_gtb d threshold_db) <$> reverse max_db)
    with (above_threshold (reverse max_db)).
  set (s6 := Store.with_new s5 _).
  assert (P6 : preserved s5 s6) by apply preserved_with_new.
  assert (P06 : preserved s s6) by eauto using preserved_trans.
  unfold Store.bind at 1. rewrite (argmax_run s6 _ _ (lookup_with_new _ _)).
  destruct (np_argmax (above_threshold (reverse max_db))) as [r|e]; cbn [bind].
  2: raised_at P06.
  unfold Store.bind at 1. rewrite (item_run s6 _ f) by (apply P06; exact Hf).
  destruct (getitem f _) as [hi|e]; cbn [bind].
  2: raised_at P06.
  eexists _, _. split; [reflexivity|]. split; [exact P06|]. cbn. split; reflexivity.
Qed.

(** One call over the store: the value and the printed line are those of
    [detect_valid_frequency_range] on the contents of the two arrays. *)
Lemma store_detect_run (s : Store.store) (freqs_array Pxx : Store.loc)
    (f : list Q) (p : list (list Q)) :
  Store.heap s !! freqs_array = Some (Store.Floats f) ->
  Store.heap s !! Pxx = Some (Store.Floats2 p) ->
  exists s',
    Store.detect_valid_frequency_range freqs_array Pxx s
      = (Ok (detect_valid_frequency_range f p).2, s') /\
    preserved s s' /\
    Store.stdout s' = Store.stdout s ++ (detect_valid_frequency_range f p).1.
Proof.
  intros Hf Hp.
  destruct (store_detect_body_run s freqs_array Pxx f p Hf Hp) as (r & s' & Hrun & Hpres & H).
  unfold Store.detect_valid_frequency_range, Store.try_except, detect_valid_frequency_range.
  rewrite Hrun. destruct (detect_body f p) as [[lo hi]|e]; destruct H as [-> Hout].
  - exists s'. cbn. auto.
  - eexists. split; [reflexivity|]. split.
    + intros l o Hl. cbn. now apply Hpres.
    + cbn. now rewrite Hout.
Qed.

(** C10.  Detection called twice on the same two arrays returns the same
    pair both times, the one [detect_valid_frequency_range] computes from
    their contents, and no array that existed before a call, the two
    arguments among them, is changed by it: the calls only build new
    arrays and print. *)
Theorem detection_is_repeatable_and_leaves_its_arrays
    (s : Store.store) (freqs_array Pxx : Store.loc) (f : list Q) (p : list (list Q)) :
  Store.heap s !! freqs_array = Some (Store.Floats f) ->
  Store.heap s !! Pxx = Some (Store.Floats2 p) ->
  exists (r : option (Q * Q)) (s1 s2 : Store.store),
    Store.detect_valid_frequency_range freqs_array Pxx s = (Ok r, s1) /\
    Store.detect_valid_frequency_range freqs_array Pxx s1 = (Ok r, s2) /\
    r = (detect_valid_frequency_range f p).2 /\
    preserved s s1 /\ preserved s1 s2 /\
    Store.heap s1 !! freqs_array = Some (Store.Floats f) /\
    Store.heap s1 !! Pxx = Some (Store.Floats2 p) /\
    Store.heap s2 !! freqs_array = Some (Store.Floats f) /\
    Store.heap s2 !! Pxx = Some (Store.Floats2 p).
Proof.
  intros Hf Hp.
  destruct (store_detect_run s freqs_array Pxx f p Hf Hp) as (s1 & Hrun1 & Hpres1 & _).
  pose proof (Hpres1 _ _ Hf) as Hf1. pose proof (Hpres1 _ _ Hp) as Hp1.
  destruct (store_detect_run s1 freqs_array Pxx f p Hf1 Hp1) as (s2 & Hrun2 & Hpres2 & _).
  exists (detect_valid_frequency_range f p).2, s1, s2.
  repeat split; auto.
Qed.

Lemma detection_repeated_example :
  exists (r : option (Q * Q)) (s1 s2 : Store.store),
    Store.detect_valid_frequency_range 0%nat 1%nat caller_store = (Ok r, s1) /\
    Store.detect_valid_frequency_range 0%nat 1%nat s1 = (Ok r, s2) /\
    r = (detect_valid_frequency_range [0; 1; 2]%Q [[0; 1000]; [0; 0]; [3; 200]]%Q).2 /\
    preserved caller_store s1 /\ preserved s1 s2 /\
    Store.heap s1 !! 0%nat = Some (Store.Floats [0; 1; 2]%Q) /\
    Store.heap s1 !! 1%nat = Some (Store.Floats2 [[0; 1000]; [0; 0]; [3; 200]]%Q) /\
    Store.heap s2 !! 0%nat = Some (Store.Floats [0; 1; 2]%Q) /\
    Store.heap s2 !! 1%nat = Some (Store.Floats2 [[0; 1000]; [0; 0]; [3; 200]]%Q).
Proof.
  apply (detection_is_repeatable_and_leaves_its_arrays caller_store 0%nat 1%nat).
  - reflexivity.
  - reflexivity.
Defined.

Example store_detect_example :
  (Store.detect_valid_frequency_range 0%nat 1%nat caller_store).1 = Ok (Some (0, 2)%Q).
Proof. vm_compute. reflexivity. Qed.

(** * Further properties of the script *)

(** ** Detection: the threshold on the linear scale, failure, order *)





Lemma rectangular_rows_nonempty (columns : nat) (Pxx : list (list Q)) :
  rectangular columns Pxx -> (0 < columns)%nat -> Forall (fun row => row <> []) Pxx.
Proof.
  intros Hrect Hc. eapply Forall_impl; [exact Hrect|].
  intros row Hrow ->. cbn in Hrow. lia.
Qed.

(** Both scans on a surface that has cells: the indices found, in order. *)
Lemma detect_scan (freqs_array : list Q) (Pxx : list (list Q)) (columns : nat) :
  length Pxx = length freqs_array ->
  rectangular columns Pxx ->
  (0 < columns)%nat ->
  Pxx <> [] ->
  exists (i j : nat) (lo hi : Q),
    detect_valid_frequency_range freqs_array Pxx = ([PrintValidRange lo hi], Some (lo, hi)) /\
    freqs_array !! i = Some lo /\ freqs_array !! j = Some hi /\ (i <= j)%nat /\
    (true ∈ row_above <$> Pxx \/ (i = 0%nat /\ j = Nat.pred (length freqs_array))).
Proof.
  intros Hlen Hrect Hc HP.
  pose proof (rectangular_rows_nonempty _ _ Hrect Hc) as Hne.
  destruct (above_threshold_rows _ Hne) as (max_db & Hdb & Habove).
  set (flags := row_above <$> Pxx) in *.
  assert (Hflags : length flags = length freqs_array)
    by (unfold flags; now rewrite length_fmap).
  assert (Hpos : (0 < length freqs_array)%nat).
  { rewrite <- Hlen. destruct Pxx; [congruence|cbn; lia]. }
  unfold detect_valid_frequency_range, detect_body.
  rewrite Hdb. cbn [bind]. rewrite Habove.
  unfold above_threshold in *. rewrite fmap_reverse, Habove.
  destruct (max_bool flags) eqn:Hm.
  - apply max_bool_true in Hm.
    destruct (np_argmax_first _ Hm) as (i & Hi & Hit & Hif).
    destruct (np_argmax_reverse_last _ Hm) as (j & r & Hr & Hjr & Hjt & Hjf).
    assert (Hilt : (i < length freqs_array)%nat)
      by (rewrite <- Hflags; eapply lookup_lt_Some; exact Hit).
    assert (Hjlt : (j < length freqs_array)%nat)
      by (rewrite <- Hflags; eapply lookup_lt_Some; exact Hjt).
    destruct (lookup_lt_is_Some_2 _ _ Hilt) as [lo Hlo].
    destruct (lookup_lt_is_Some_2 _ _ Hjlt) as [hi Hhi].
    exists i, j, lo, hi. rewrite Hi. cbn [bind].
    rewrite (getitem_in_range _ _ _ Hlo). cbn [bind]. rewrite Hr. cbn [bind].
    replace (Z.of_nat (length freqs_array) - Z.of_nat r - 1) with (Z.of_nat j) by lia.
    rewrite (getitem_in_range _ _ _ Hhi). cbn [bind].
    repeat split; auto.
    destruct (Nat.le_gt_cases i j) as [Hle|Hgt]; [exact Hle|].
    specialize (Hif j Hgt). congruence.
  - apply max_bool_false in Hm.
    assert (Hfne : flags <> []) by (intros E; rewrite E in Hflags; cbn in Hflags; lia).
    destruct (lookup_lt_is_Some_2 freqs_array 0%nat Hpos) as [lo Hlo].
    destruct (lookup_lt_is_Some_2 freqs_array (Nat.pred (length freqs_array)) ltac:(lia))
      as [hi Hhi].
    exists 0%nat, (Nat.pred (length freqs_array)), lo, hi.
    rewrite (np_argmax_all_false _ Hfne Hm). cbn [bind].
    pose proof (getitem_in_range _ 0%nat _ Hlo) as Hfirst.
    change (Z.of_nat 0) with 0 in Hfirst. rewrite Hfirst. cbn [bind].
    rewrite np_argmax_all_false.
    + cbn [bind].
      replace (Z.of_nat (length freqs_array) - 0 - 1)
        with (Z.of_nat (Nat.pred (length freqs_array))) by lia.
      rewrite (getitem_in_range _ _ _ Hhi). cbn [bind].
      repeat split; auto; lia.
    + intros E. apply Hfne. apply (f_equal reverse) in E.
      now rewrite reverse_involutive in E.
    + now apply Forall_reverse.
Qed.

Lemma detect_no_cells (freqs_array : list Q) (Pxx : list (list Q)) (columns : nat) :
  rectangular columns Pxx ->
  Pxx = [] \/ columns = 0%nat ->
  detect_valid_frequency_range freqs_array Pxx = ([PrintDetectError ValueError], None).
Proof.
  intros Hrect H. unfold detect_valid_frequency_range, detect_body, max_db_per_freq.
  destruct Pxx as [|row Pxx]; [reflexivity|].
  destruct H as [H|H]; [discriminate|subst columns].
  apply Forall_cons in Hrect as [Hrow _]. destruct row; [reflexivity|discriminate].
Qed.

(** X2.  On a surface with one row per frequency, detection answers [None]
    (after printing the error, a [ValueError]) exactly when the surface has
    no cell: no frequency row, or rows without a time column.  In every
    other case it returns a pair. *)
Theorem detection_fails_exactly_without_cells
    (freqs_array : list Q) (Pxx : list (list Q)) (columns : nat) :
  length Pxx = length freqs_array ->
  rectangular columns Pxx ->
  ((detect_valid_frequency_range freqs_array Pxx).2 = None
     <-> Pxx = [] \/ columns = 0%nat) /\
  ((detect_valid_frequency_range freqs_array Pxx).2 = None ->
     (detect_valid_frequency_range freqs_array Pxx).1 = [PrintDetectError ValueError]).
Proof.
  intros Hlen Hrect.
  assert (Hcases : (Pxx = [] \/ columns = 0%nat) \/ (Pxx <> [] /\ (0 < columns)%nat)).
  { destruct Pxx; [left; now left|]. destruct columns; [left; now right|].
    right. split; [discriminate|lia]. }
  destruct Hcases as [H|[HP Hc]].
  - rewrite (detect_no_cells _ _ _ Hrect H). cbn. split; [|reflexivity].
    split; auto.
  - destruct (detect_scan _ _ _ Hlen Hrect Hc HP) as (i & j & lo & hi & -> & _).
    cbn. split; [|discriminate]. split; [discriminate|].
    intros [H|H]; [contradiction|lia].
Qed.

Lemma detection_fails_example :
  ((detect_valid_frequency_range [0; 1]%Q [[]; []]).2 = None
     <-> [[]; []] = ([] : list (list Q)) \/ 0%nat = 0%nat) /\
  ((detect_valid_frequency_range [0; 1]%Q [[]; []]).2 = None ->
     (detect_valid_frequency_range [0; 1]%Q [[]; []]).1 = [PrintDetectError ValueError]).
Proof.
  apply (detection_fails_exactly_without_cells [0; 1]%Q [[]; []] 0%nat).
  - reflexivity.
  - repeat constructor.
Defined.

Lemma StronglySorted_lookup_le (l : list Q) (i j : nat) (a b : Q) :
  StronglySorted Qle l -> (i <= j)%nat ->
  l !! i = Some a -> l !! j = Some b -> (a <= b)%Q.
Proof.
  intros Hs. revert i j. induction Hs as [|x l Hs IH Hx]; intros i j Hij Hi Hj.
  - inversion Hi.
  - destruct i as [|i], j as [|j]; cbn in *; try lia.
    + injection Hi as <-. injection Hj as <-. apply Qle_refl.
    + injection Hi as <-. rewrite Forall_forall in Hx. apply Hx.
      eapply list_elem_of_lookup_2. exact Hj.
    + apply (IH i j); auto. lia.
Qed.

(** X3.  A detected range is made of two of the given frequencies, the
    first taken at an index not after the second's; on an ascending
    frequency array that gives [min_freq <= max_freq], whether a signal was
    found or not. *)
Theorem detected_range_is_ordered
    (freqs_array : list Q) (Pxx : list (list Q)) (columns : nat) (min_freq max_freq : Q) :
  length Pxx = length freqs_array ->
  rectangular columns Pxx ->
  (detect_valid_frequency_range freqs_array Pxx).2 = Some (min_freq, max_freq) ->
  exists i j : nat,
    freqs_array !! i = Some min_freq /\ freqs_array !! j = Some max_freq /\
    (i <= j)%nat /\
    (StronglySorted Qle freqs_array -> (min_freq <= max_freq)%Q).
Proof.
  intros Hlen Hrect H.
  assert (Hcases : (Pxx = [] \/ columns = 0%nat) \/ (Pxx <> [] /\ (0 < columns)%nat)).
  { destruct Pxx; [left; now left|]. destruct columns; [left; now right|].
    right. split; [discriminate|lia]. }
  destruct Hcases as [Hn|[HP Hc]].
  - rewrite (detect_no_cells _ _ _ Hrect Hn) in H. discriminate H.
  - destruct (detect_scan _ _ _ Hlen Hrect Hc HP) as (i & j & lo & hi & E & Hi & Hj & Hij & _).
    rewrite E in H. cbn in H. injection H as <- <-.
    exists i, j. repeat split; auto.
    intros Hs. eapply StronglySorted_lookup_le; eauto.
Qed.

Lemma detected_range_example :
  exists i j : nat,
    [0; 1; 2; 3]%Q !! i = Some 1%Q /\ [0; 1; 2; 3]%Q !! j = Some 2%Q /\
    (i <= j)%nat /\
    (StronglySorted Qle [0; 1; 2; 3]%Q -> (1 <= 2)%Q).
Proof.
  apply (detected_range_is_ordered [0; 1; 2; 3]%Q
           [[0; 1]; [0; 1000]; [200; 3]; [7; 8]]%Q 2%nat 1%Q 2%Q).
  - reflexivity.
  - repeat constructor.
  - vm_compute. reflexivity.
Defined.

(** ** The view: what is kept, the extent, the order of the axes *)

Lemma getitem_elem {A : Type} (a : list A) (i : Z) (x : A) :
  getitem a i = Ok x -> x ∈ a.
Proof.
  unfold getitem. destruct (_ && _); [|discriminate].
  destruct (a !! _) as [y|] eqn:E; [|discriminate]. cbn. intros [= <-].
  eapply list_elem_of_lookup_2. exact E.
Qed.

Lemma detect_Some_members (freqs_array : list Q) (Pxx : list (list Q)) (lo hi : Q) :
  (detect_valid_frequency_range freqs_array Pxx).2 = Some (lo, hi) ->
  lo ∈ freqs_array /\ hi ∈ freqs_array.
Proof.
  unfold detect_valid_frequency_range.
  destruct (detect_body freqs_array Pxx) as [[lo' hi']|e] eqn:E; [|discriminate].
  cbn. intros H. inversion H; subst. clear H. revert E. unfold detect_body.
  destruct (max_db_per_freq Pxx) as [max_db|]; cbn [bind]; [|discriminate].
  destruct (np_argmax _) as [i|]; cbn [bind]; [|discriminate].
  destruct (getitem freqs_array i) as [x|] eqn:Elo; cbn [bind]; [|discriminate].
  destruct (np_argmax _) as [r|]; cbn [bind]; [|discriminate].
  destruct (getitem freqs_array (Z.of_nat (length freqs_array) - r - 1))
    as [y|] eqn:Ehi; cbn [bind]; [|discriminate].
  intros H. inversion H; subst. split.
  - eapply getitem_elem. exact Elo.
  - eapply getitem_elem. exact Ehi.
Qed.

Lemma select_filter {A : Type} (p : A -> bool) (l : list A) :
  select (p <$> l) l = List.filter p l.
Proof.
  induction l as [|x l IH]; [reflexivity|]. cbn. rewrite IH. reflexivity.
Qed.

Lemma select_fmap {A B : Type} (f : A -> B) (mask : list bool) (l : list A) :
  select mask (f <$> l) = f <$> select mask l.
Proof.
  revert l. induction mask as [|m mask IH]; intros [|x l]; try reflexivity.
  cbn. rewrite IH. now destruct m.
Qed.

Lemma select_all {A : Type} (mask : list bool) (l : list A) :
  Forall (eq true) mask -> length mask = length l -> select mask l = l.
Proof.
  revert l. induction mask as [|m mask IH]; intros [|x l] Hall Hlen;
    try reflexivity; try discriminate.
  apply Forall_cons in Hall as [<- Hall]. cbn. f_equal. apply IH; auto.
Qed.

Lemma in_range_filter (lo hi : Q) (l : list Q) :
  select (in_range lo hi l) l
  = List.filter (fun f => Qle_bool lo f && Qle_bool f hi) l.
Proof. apply select_filter. Qed.

Lemma np_max_is_max (l : list Q) (m : Q) : np_max l = Ok m -> is_max m l.
Proof.
  destruct l as [|x xs]; [discriminate|]. intros [= <-]. apply foldl_Qmaxb_is_max.
Qed.

(** The four numbers of [extent] are the ends of the two axes. *)
Lemma display_extent (py_float : string -> exc Q) (g : globals) (s : surface)
    (utc_time : datetime) (base_freq_mhz : Q) (range : option (Q * Q)) (v : RenderedView) :
  display py_float g s utc_time base_freq_mhz range = Ok v ->
  exists left right bottom top,
    extent v = (left, right, bottom, top) /\
    min_datetime (time_array v) = Ok left /\
    max_datetime (time_array v) = Ok right /\
    np_min (freqs_array_display v) = Ok bottom /\
    np_max (freqs_array_display v) = Ok top.
Proof.
  destruct s as [[freqs_array times] Pxx]. unfold display. intros H.
  destruct (unpack range) as [[min_freq max_freq]|]; cbn [bind] in H; [|discriminate].
  destruct (bool_index freqs_array _); cbn [bind] in H; [|discriminate].
  destruct (bool_index Pxx _); cbn [bind] in H; [|discriminate].
  destruct (np_min times); cbn [bind] in H; [|discriminate].
  destruct (py_float _); cbn [bind] in H; [|discriminate].
  destruct (min_datetime _) as [left|] eqn:E1; cbn [bind] in H; [|discriminate].
  destruct (max_datetime _) as [right|] eqn:E2; cbn [bind] in H; [|discriminate].
  destruct (np_min _) as [bottom|] eqn:E3; cbn [bind] in H; [|discriminate].
  destruct (np_max _) as [top|] eqn:E4; cbn [bind] in H; [|discriminate].
  injection H as <-. exists left, right, bottom, top. cbn. auto.
Qed.

Lemma calibrate_le (base x y : Q) :
  (x <= y)%Q -> ((base + x) / 1000000 <= (base + y) / 1000000)%Q.
Proof.
  intros H. unfold Qdiv. apply Qmult_le_compat_r; [|discriminate].
  apply Qplus_le_r. exact H.
Qed.

(** X4.  When the transform answers with a surface that has no cell,
    detection returns [None], unpacking it raises a [TypeError], and
    neither [except] clause of [plot_fft_freq_chart] catches that: the
    exception leaves the function instead of the [-1] of the handled
    errors. *)
Theorem plot_lets_TypeError_escape_on_surface_without_cells
    (py_float : string -> exc Q) (spectrogram : list Z -> Z -> Z -> Z -> exc surface)
    (g : globals) (NFFT noverlap sample_rate : Z) (linear_array : list Z)
    (utc_time : datetime) (base_freq_mhz : Q)
    (freqs_array times : list Q) (Pxx : list (list Q)) :
  spectrogram linear_array sample_rate NFFT noverlap = Ok (freqs_array, times, Pxx) ->
  surface_wf (freqs_array, times, Pxx) ->
  Pxx = [] \/ times = [] ->
  plot_fft_freq_chart py_float spectrogram g NFFT noverlap sample_rate linear_array
    utc_time base_freq_mhz
  = ([PrintMemory; PrintMemory; PrintMemory; PrintMemory; PrintDetectError ValueError],
     Propagated TypeError).
Proof.
  intros HT [_ Hrect] Hempty. unfold plot_fft_freq_chart. rewrite HT.
  rewrite (detect_no_cells freqs_array Pxx (length times) Hrect).
  - reflexivity.
  - destruct Hempty as [H|H]; [now left|right; now rewrite H].
Qed.

Lemma plot_lets_TypeError_escape_example :
  plot_fft_freq_chart float_of_digits (answering ([], [], [])) station 4 0 4 []
    new_year_2024 (1371 # 10)
  = ([PrintMemory; PrintMemory; PrintMemory; PrintMemory; PrintDetectError ValueError],
     Propagated TypeError).
Proof.
  apply (plot_lets_TypeError_escape_on_surface_without_cells float_of_digits
           (answering ([], [], [])) station 4 0 4 [] new_year_2024 (1371 # 10) [] [] []).
  - reflexivity.
  - split; [reflexivity|constructor].
  - now left.
Defined.

(** X5.  The view keeps exactly the frequencies between the detected
    [min_freq] and [max_freq], both ends included, in their order, each
    moved by the base frequency and divided by [1e6]; the grid keeps the
    rows of those frequencies; and the lower and upper frequency ends of
    [extent] are the calibrated [min_freq] and [max_freq]. *)
Theorem view_keeps_the_detected_band
    (py_float : string -> exc Q) (spectrogram : list Z -> Z -> Z -> Z -> exc surface)
    (g : globals) (NFFT noverlap sample_rate : Z) (linear_array : list Z)
    (utc_time : datetime) (base_freq_mhz : Q) (v : RenderedView) :
  (plot_fft_freq_chart py_float spectrogram g NFFT noverlap sample_rate linear_array
     utc_time base_freq_mhz).2 = Shown v ->
  exists (freqs_array times : list Q) (Pxx : list (list Q))
         (min_freq max_freq base_freq_hz : Q),
    spectrogram linear_array sample_rate NFFT noverlap = Ok (freqs_array, times, Pxx) /\
    (detect_valid_frequency_range freqs_array Pxx).2 = Some (min_freq, max_freq) /\
    py_float (drop_last2 (freq_str g)) = Ok base_freq_hz /\
    freqs_array_display v
      = (fun f => ((base_freq_hz + f) / 1000000)%Q)
          <$> List.filter (fun f => Qle_bool min_freq f && Qle_bool f max_freq) freqs_array /\
    log_spec v
      = (fun row : list Q => ten_log10 <$> row)
          <$> select (in_range min_freq max_freq freqs_array) Pxx /\
    (min_freq <= max_freq)%Q /\
    (extent v).1.2 == (base_freq_hz + min_freq) / 1000000 /\
    (extent v).2 == (base_freq_hz + max_freq) / 1000000.
Proof.
  intros H. apply plot_Shown in H as (freqs_array & times & Pxx & HT & Hd).
  pose proof (display_extent _ _ _ _ _ _ _ Hd)
    as (left & right & bottom & top & Hext & _ & _ & Hbot & Htop).
  apply display_Ok in Hd
    as (lo & hi & t0 & base & Hrange & _ & _ & Hb & Hlog & _ & Hfreq & _ & _ & Hne).
  destruct (detect_Some_members _ _ _ _ Hrange) as [Hlo Hhi].
  rewrite in_range_filter in Hfreq, Hne.
  set (keep := fun f => Qle_bool lo f && Qle_bool f hi) in *.
  assert (Hkeep : forall x, x ∈ List.filter keep freqs_array ->
                            x ∈ freqs_array /\ (lo <= x)%Q /\ (x <= hi)%Q).
  { intros x Hx. apply list_elem_of_In, List.filter_In in Hx as [Hx Hk].
    apply list_elem_of_In in Hx. unfold keep in Hk.
    apply andb_true_iff in Hk as [H1 H2]. apply Qle_bool_iff in H1, H2. auto. }
  assert (Hle : (lo <= hi)%Q).
  { destruct (List.filter keep freqs_array) as [|x l] eqn:E; [congruence|].
    destruct (Hkeep x ltac:(left)) as (_ & H1 & H2). eapply Qle_trans; eauto. }
  assert (Hin : forall x, x ∈ freqs_array -> (lo <= x)%Q -> (x <= hi)%Q ->
                          x ∈ List.filter keep freqs_array).
  { intros x Hx H1 H2. apply list_elem_of_In, List.filter_In. split.
    - now apply list_elem_of_In.
    - unfold keep. apply andb_true_iff. split; now apply Qle_bool_iff. }
  exists freqs_array, times, Pxx, lo, hi, base.
  split; [exact HT|]. split; [exact Hrange|]. split; [exact Hb|].
  split; [exact Hfreq|]. split; [exact Hlog|]. split; [exact Hle|].
  rewrite Hext. cbn [fst snd]. rewrite Hfreq in Hbot, Htop.
  apply np_min_is_min in Hbot as [Hbin Hbmin]. apply np_max_is_max in Htop as [Htin Htmax].
  apply list_elem_of_fmap in Hbin as (xb & -> & Hxb).
  apply list_elem_of_fmap in Htin as (xt & -> & Hxt).
  destruct (Hkeep _ Hxb) as (_ & Hb1 & _). destruct (Hkeep _ Hxt) as (_ & _ & Ht2).
  split; apply Qle_antisym.
  - apply Hbmin. apply list_elem_of_fmap. exists lo. split; [reflexivity|].
    apply Hin; auto. apply Qle_refl.
  - now apply calibrate_le.
  - now apply calibrate_le.
  - apply Htmax. apply list_elem_of_fmap. exists hi. split; [reflexivity|].
    apply Hin; auto. apply Qle_refl.
Qed.

Lemma view_keeps_the_detected_band_example :
  exists (freqs_array times : list Q) (Pxx : list (list Q))
         (min_freq max_freq base_freq_hz : Q),
    answering burst_then_silence burst_samples 4 4 0 = Ok (freqs_array, times, Pxx) /\
    (detect_valid_frequency_range freqs_array Pxx).2 = Some (min_freq, max_freq) /\
    float_of_digits (drop_last2 (freq_str station)) = Ok base_freq_hz /\
    freqs_array_display burst_view
      = (fun f => ((base_freq_hz + f) / 1000000)%Q)
          <$> List.filter (fun f => Qle_bool min_freq f && Qle_bool f max_freq) freqs_array /\
    log_spec burst_view
      = (fun row : list Q => ten_log10 <$> row)
          <$> select (in_range min_freq max_freq freqs_array) Pxx /\
    (min_freq <= max_freq)%Q /\
    (extent burst_view).1.2 == (base_freq_hz + min_freq) / 1000000 /\
    (extent burst_view).2 == (base_freq_hz + max_freq) / 1000000.
Proof.
  apply (view_keeps_the_detected_band float_of_digits (answering burst_then_silence)
           station 4 0 4 burst_samples new_year_2024 (1371 # 10)).
  vm_compute. reflexivity.
Defined.

Lemma round_half_even_bounds (x : Q) :
  Qfloor x <= round_half_even x <= Qfloor x + 1.
Proof.
  unfold round_half_even.
  destruct (x - inject_Z (Qfloor x) ?= 1 # 2)%Q; [destruct (Z.even _)| |]; lia.
Qed.

(** Rounding to microseconds keeps the order. *)
Lemma round_half_even_mono (x y : Q) :
  (x <= y)%Q -> round_half_even x <= round_half_even y.
Proof.
  intros Hxy. pose proof (Qfloor_resp_le _ _ Hxy) as Hfl.
  destruct (Z.eq_dec (Qfloor x) (Qfloor y)) as [E|N].
  - unfold round_half_even. rewrite <- E. set (n := Qfloor x) in *.
    destruct (Qcompare_spec (x - inject_Z n) (1 # 2)) as [Cx|Cx|Cx];
      destruct (Qcompare_spec (y - inject_Z n) (1 # 2)) as [Cy|Cy|Cy];
      try (destruct (Z.even n)); try lia; exfalso; Lqa.lra.
  - pose proof (round_half_even_bounds x). pose proof (round_half_even_bounds y). lia.
Qed.

Lemma timedelta_seconds_mono (s t : Q) :
  (s <= t)%Q -> timedelta_seconds s <= timedelta_seconds t.
Proof.
  intros H. unfold timedelta_seconds. apply round_half_even_mono.
  apply Qmult_le_compat_r; [exact H|discriminate].
Qed.

Lemma timedelta_seconds_nonneg (s : Q) : (0 <= s)%Q -> 0 <= timedelta_seconds s.
Proof.
  intros H. unfold timedelta_seconds.
  assert (H0 : (0 <= s * 1000000)%Q) by (apply Qmult_le_0_compat; [exact H|discriminate]).
  pose proof (Qfloor_resp_le _ _ H0) as Hf. pose proof (round_half_even_bounds (s * 1000000)).
  change (Qfloor 0) with 0 in Hf. lia.
Qed.

Lemma select_StronglySorted {A : Type} (R : relation A) (mask : list bool) (l : list A) :
  StronglySorted R l -> StronglySorted R (select mask l).
Proof.
  revert l. induction mask as [|m mask IH]; intros [|x l] H; cbn; try constructor.
  apply StronglySorted_inv in H as [Hl Hx]. destruct m; [|auto].
  constructor; [auto|]. now apply select_Forall.
Qed.

Lemma min_datetime_is_min (l : list datetime) (m : datetime) :
  min_datetime l = Ok m -> m ∈ l /\ forall x, x ∈ l -> m <= x.
Proof.
  destruct l as [|x xs]; [discriminate|]. intros [= <-]. revert x.
  induction xs as [|y xs IH]; intros x; cbn [foldl].
  - split; [left|]. intros z Hz. apply list_elem_of_singleton in Hz as ->. lia.
  - destruct (IH (Z.min x y)) as [Hin Hle]. split.
    + apply elem_of_cons in Hin as [E|Hin].
      * rewrite E. destruct (Z.min_spec x y) as [[_ ->]|[_ ->]]; [left|right; left].
      * right. now right.
    + intros z Hz. pose proof (Hle (Z.min x y) ltac:(left)) as Hm.
      apply elem_of_cons in Hz as [->|Hz]; [lia|].
      apply elem_of_cons in Hz as [->|Hz]; [lia|]. apply Hle. now right.
Qed.

Lemma max_datetime_is_max (l : list datetime) (m : datetime) :
  max_datetime l = Ok m -> m ∈ l /\ forall x, x ∈ l -> x <= m.
Proof.
  destruct l as [|x xs]; [discriminate|]. intros [= <-]. revert x.
  induction xs as [|y xs IH]; intros x; cbn [foldl].
  - split; [left|]. intros z Hz. apply list_elem_of_singleton in Hz as ->. lia.
  - destruct (IH (Z.max x y)) as [Hin Hle]. split.
    + apply elem_of_cons in Hin as [E|Hin].
      * rewrite E. destruct (Z.max_spec x y) as [[_ ->]|[_ ->]]; [right; left|left].
      * right. now right.
    + intros z Hz. pose proof (Hle (Z.max x y) ltac:(left)) as Hm.
      apply elem_of_cons in Hz as [->|Hz]; [lia|].
      apply elem_of_cons in Hz as [->|Hz]; [lia|]. apply Hle. now right.
Qed.

Lemma StronglySorted_last_max (l : list Z) (x z : Z) :
  StronglySorted Z.le l -> last l = Some z -> x ∈ l -> x <= z.
Proof.
  intros Hs Hlast Hx. rewrite last_lookup in Hlast.
  apply list_elem_of_lookup in Hx as [i Hi].
  pose proof (lookup_lt_Some _ _ _ Hi) as Hlt.
  revert i x z Hi Hlast Hlt. induction Hs as [|y l Hs IH Hy]; intros i x z Hi Hlast Hlt.
  - inversion Hi.
  - cbn [length Nat.pred] in Hlast. destruct i as [|i]; cbn in Hi.
    + injection Hi as <-. destruct l as [|w l']; cbn in *.
      * injection Hlast as <-. lia.
      * rewrite Forall_forall in Hy. apply Hy.
        eapply list_elem_of_lookup_2. exact Hlast.
    + destruct l as [|w l']; [inversion Hi|].
      apply (IH i); [exact Hi|exact Hlast|]. cbn in *. lia.
Qed.

(** X6.  When the frequencies of the surface ascend, so does the frequency
    axis of the view. *)
Theorem frequency_axis_ascends
    (py_float : string -> exc Q) (spectrogram : list Z -> Z -> Z -> Z -> exc surface)
    (g : globals) (NFFT noverlap sample_rate : Z) (linear_array : list Z)
    (utc_time : datetime) (base_freq_mhz : Q)
    (freqs_array times : list Q) (Pxx : list (list Q)) (v : RenderedView) :
  spectrogram linear_array sample_rate NFFT noverlap = Ok (freqs_array, times, Pxx) ->
  StronglySorted Qle freqs_array ->
  (plot_fft_freq_chart py_float spectrogram g NFFT noverlap sample_rate linear_array
     utc_time base_freq_mhz).2 = Shown v ->
  StronglySorted Qle (freqs_array_display v).
Proof.
  intros HT Hs H. apply plot_Shown in H as (f' & t' & P' & HT' & Hd).
  rewrite HT in HT'. injection HT' as <- <- <-.
  apply display_Ok in Hd
    as (lo & hi & t0 & base & _ & _ & _ & _ & _ & _ & Hfreq & _).
  rewrite Hfreq. apply (StronglySorted_fmap _ Qle Qle).
  - intros x y. apply calibrate_le.
  - now apply select_StronglySorted.
Qed.

Lemma frequency_axis_ascends_example : StronglySorted Qle (freqs_array_display burst_view).
Proof.
  apply (frequency_axis_ascends float_of_digits (answering burst_then_silence)
           station 4 0 4 burst_samples new_year_2024 (1371 # 10)
           [0; 1; 2]%Q [1 # 2; 3 # 2]%Q [[2000; 0]; [50000; 0]; [3000; 0]]%Q).
  - reflexivity.
  - repeat constructor; discriminate.
  - vm_compute. reflexivity.
Defined.

(** X7.  When the relative times of the surface ascend and none is
    negative, the time axis of the view ascends too, the left end of
    [extent] is [start_time] (the time in the x label) and the right end is
    the last entry of the axis. *)
Theorem time_axis_ascends
    (py_float : string -> exc Q) (spectrogram : list Z -> Z -> Z -> Z -> exc surface)
    (g : globals) (NFFT noverlap sample_rate : Z) (linear_array : list Z)
    (utc_time : datetime) (base_freq_mhz : Q)
    (freqs_array times : list Q) (Pxx : list (list Q)) (v : RenderedView) :
  spectrogram linear_array sample_rate NFFT noverlap = Ok (freqs_array, times, Pxx) ->
  StronglySorted Qle times ->
  Forall (fun sec => (0 <= sec)%Q) times ->
  (plot_fft_freq_chart py_float spectrogram g NFFT noverlap sample_rate linear_array
     utc_time base_freq_mhz).2 = Shown v ->
  StronglySorted Z.le (time_array v) /\
  (extent v).1.1.1 = xlabel v /\
  last (time_array v) = Some (extent v).1.1.2.
Proof.
  intros HT Hs Hpos H. apply plot_Shown in H as (f' & t' & P' & HT' & Hd).
  rewrite HT in HT'. injection HT' as <- <- <-.
  pose proof (display_extent _ _ _ _ _ _ _ Hd)
    as (left & right & bottom & top & Hext & Hleft & Hright & _ & _).
  apply display_Ok in Hd
    as (lo & hi & t0 & base & _ & _ & _ & _ & _ & Htime & _ & Hx & _).
  set (start := utc_time + timedelta_seconds t0) in *.
  assert (Hsorted : StronglySorted Z.le (time_array v)).
  { rewrite Htime. constructor.
    - apply (StronglySorted_fmap _ Qle Z.le); [|exact Hs].
      intros x y Hxy. pose proof (timedelta_seconds_mono _ _ Hxy). lia.
    - apply Forall_fmap. eapply Forall_impl; [exact Hpos|].
      intros sec Hsec. cbn. pose proof (timedelta_seconds_nonneg _ Hsec). lia. }
  split; [exact Hsorted|]. rewrite Hext, Hx. cbn [fst snd].
  apply min_datetime_is_min in Hleft as [Hlin Hlmin].
  apply max_datetime_is_max in Hright as [Hrin Hrmax].
  split.
  - assert (Hstart : start ∈ time_array v) by (rewrite Htime; left).
    pose proof (Hlmin _ Hstart).
    rewrite Htime in Hlin, Hsorted. apply StronglySorted_inv in Hsorted as [_ Hall].
    apply elem_of_cons in Hlin as [->|Hlin]; [reflexivity|].
    rewrite Forall_forall in Hall. pose proof (Hall _ Hlin). lia.
  - destruct (last (time_array v)) as [z|] eqn:El.
    + f_equal. pose proof (StronglySorted_last_max _ _ _ Hsorted El Hrin).
      assert (z ∈ time_array v).
      { rewrite last_lookup in El. eapply list_elem_of_lookup_2. exact El. }
      pose proof (Hrmax z ltac:(assumption)). lia.
    + apply last_None in El. rewrite El in Hrin. inversion Hrin.
Qed.

Lemma time_axis_ascends_example :
  StronglySorted Z.le (time_array burst_view) /\
  (extent burst_view).1.1.1 = xlabel burst_view /\
  last (time_array burst_view) = Some (extent burst_view).1.1.2.
Proof.
  apply (time_axis_ascends float_of_digits (answering burst_then_silence)
           station 4 0 4 burst_samples new_year_2024 (1371 # 10)
           [0; 1; 2]%Q [1 # 2; 3 # 2]%Q [[2000; 0]; [50000; 0]; [3000; 0]]%Q).
  - reflexivity.
  - repeat constructor; discriminate.
  - repeat constructor; discriminate.
  - vm_compute. reflexivity.
Defined.

(** X8.  A surface without any signal is shown whole.  When no row is
    above the threshold and the frequencies ascend, the "range" returned is
    the first and the last frequency, so the mask keeps every row: the view
    has every frequency of the surface and every row of its grid. *)
Theorem surface_without_signal_is_shown_whole
    (py_float : string -> exc Q) (spectrogram : list Z -> Z -> Z -> Z -> exc surface)
    (g : globals) (NFFT noverlap sample_rate : Z) (linear_array : list Z)
    (utc_time : datetime) (base_freq_mhz : Q)
    (freqs_array times : list Q) (Pxx : list (list Q)) (v : RenderedView) :
  spectrogram linear_array sample_rate NFFT noverlap = Ok (freqs_array, times, Pxx) ->
  surface_wf (freqs_array, times, Pxx) ->
  StronglySorted Qle freqs_array ->
  Forall (fun row => row_above row = false) Pxx ->
  (plot_fft_freq_chart py_float spectrogram g NFFT noverlap sample_rate linear_array
     utc_time base_freq_mhz).2 = Shown v ->
  log_spec v = (fun row : list Q => ten_log10 <$> row) <$> Pxx /\
  exists base_freq_hz,
    py_float (drop_last2 (freq_str g)) = Ok base_freq_hz /\
    freqs_array_display v
      = (fun f => ((base_freq_hz + f) / 1000000)%Q) <$> freqs_array.
Proof.
  intros HT [Hrows Hrect] Hs Hnone H.
  apply plot_Shown in H as (f' & t' & P' & HT' & Hd).
  rewrite HT in HT'. injection HT' as <- <- <-.
  apply display_Ok in Hd
    as (lo & hi & t0 & base & Hrange & _ & _ & Hb & Hlog & _ & Hfreq & _ & _ & _).
  assert (Hcases : (Pxx = [] \/ length times = 0%nat)
                   \/ (Pxx <> [] /\ (0 < length times)%nat)).
  { destruct Pxx; [left; now left|]. destruct (length times); [left; now right|].
    right. split; [discriminate|lia]. }
  destruct Hcases as [Hn|[HP Hc]].
  { rewrite (detect_no_cells _ _ _ Hrect Hn) in Hrange. discriminate Hrange. }
  destruct (detect_scan _ _ _ Hrows Hrect Hc HP)
    as (i & j & lo' & hi' & E & Hi & Hj & _ & Hwhere).
  rewrite E in Hrange. cbn in Hrange. inversion Hrange; subst lo' hi'. clear Hrange.
  destruct Hwhere as [Htrue|[-> ->]].
  { apply list_elem_of_fmap in Htrue as (row & Hrow & Hin).
    rewrite Forall_forall in Hnone. rewrite (Hnone row Hin) in Hrow. discriminate. }
  assert (Hmask : Forall (eq true) (in_range lo hi freqs_array)).
  { unfold in_range. apply Forall_fmap. apply Forall_forall. intros x Hx. cbn.
    apply list_elem_of_lookup in Hx as [k Hk].
    pose proof (lookup_lt_Some _ _ _ Hk) as Hlt.
    symmetry. apply andb_true_iff. split; apply Qle_bool_iff.
    - eapply (StronglySorted_lookup_le freqs_array 0%nat k); eauto. lia.
    - eapply (StronglySorted_lookup_le freqs_array k (Nat.pred (length freqs_array)));
        eauto. lia. }
  assert (Hlen : length (in_range lo hi freqs_array) = length freqs_array)
    by (unfold in_range; now rewrite length_fmap).
  rewrite select_all in Hlog by (auto; congruence).
  rewrite select_all in Hfreq by auto.
  split; [exact Hlog|]. exists base. auto.
Qed.

Lemma surface_without_signal_example :
  log_spec silence_view = (fun row : list Q => ten_log10 <$> row) <$> [[0]; [0]; [0]; [0]]%Q /\
  exists base_freq_hz,
    float_of_digits (drop_last2 (freq_str station)) = Ok base_freq_hz /\
    freqs_array_display silence_view
      = (fun f => ((base_freq_hz + f) / 1000000)%Q) <$> [0; 1; 2; 3]%Q.
Proof.
  apply (surface_without_signal_is_shown_whole float_of_digits (answering silence)
           station 8 2 6 silent_samples new_year_2024 (1371 # 10)
           [0; 1; 2; 3]%Q [1 # 2]%Q [[0]; [0]; [0]; [0]]%Q).
  - reflexivity.
  - split; [reflexivity|]. repeat constructor.
  - repeat constructor; discriminate.
  - repeat constructor.
  - vm_compute. reflexivity.
Defined.

(** ** The loader: what each result means *)

Lemma first_column_raises (a : ndarray) (e : exn) :
  first_column a = Raise e ->
  e = IndexError /\ (forall frames, a = Multi frames -> [] ∈ frames).
Proof.
  destruct a as [xs|frames]; cbn.
  - intros [= <-]. split; [reflexivity|]. intros frames [=].
  - intros H. assert (Hgen : e = IndexError /\ [] ∈ frames).
    { revert H. generalize dependent e. induction frames as [|frame frames IH]; intros e H.
      - discriminate H.
      - cbn [traverse] in H. destruct frame as [|x frame].
        + cbn in H. injection H as <-. split; [reflexivity|left].
        + cbn [getitem] in H. cbn in H.
          destruct (traverse _ frames) as [col|e'] eqn:E; cbn in H; [discriminate|].
          injection H as <-. destruct (IH e' eq_refl) as [-> Hin].
          split; [reflexivity|now right]. }
    destruct Hgen as [-> Hin]. split; [reflexivity|]. now intros frames' [= <-].
Qed.

(** X9.  The three results of the loader.  A loaded array is always
    one-dimensional and comes with the sample rate that was read;
    [(None, None)] is returned exactly when reading raised an [IOError];
    and [-1] is returned for every other exception of the reader and for a
    multi-channel array with a frame that has no channel.  No exception
    leaves the function. *)
Theorem data_acquisition_results
    (read : string -> exc (Z * ndarray)) (filename : string) :
  match (data_acquisition read filename).2 with
  | Loaded sample_rate a =>
      exists samples read_array,
        a = Mono samples /\ read filename = Ok (sample_rate, read_array)
  | NoneNone => read filename = Raise IOError
  | MinusOne =>
      (exists e, read filename = Raise e /\ e <> IOError) \/
      (exists sample_rate frames,
         read filename = Ok (sample_rate, Multi frames) /\ [] ∈ frames)
  end.
Proof.
  unfold data_acquisition. destruct (read filename) as [[sample_rate a]|e] eqn:Hread.
  - destruct a as [xs|frames]; cbn [ndim].
    + cbn. eauto.
    + change (1 <? 2) with true. cbv iota.
      destruct (first_column (Multi frames)) as [a'|e] eqn:Hcol.
      * cbn. cbn in Hcol.
        destruct (traverse _ frames) as [col|]; [|discriminate].
        cbn in Hcol. injection Hcol as <-. eauto.
      * destruct (first_column_raises _ _ Hcol) as [-> Hin]. cbn.
        right. exists sample_rate, frames. split; [reflexivity|]. now apply Hin.
  - destruct e; cbn; try reflexivity; left; eexists; (split; [reflexivity|discriminate]).
Qed.

(** ** File names *)

Lemma append_assoc (a b c : string) : ((a ++ b) ++ c = a ++ (b ++ c))%string.
Proof.
  induction a as [|x a IH]; [reflexivity|].
  change (String x ((a ++ b) ++ c) = String x (a ++ (b ++ c)))%string. now rewrite IH.
Qed.

Lemma append_length (a b : string) :
  String.length (a ++ b) = (String.length a + String.length b)%nat.
Proof.
  induction a as [|x a IH]; [reflexivity|].
  change (S (String.length (a ++ b)) = S (String.length a + String.length b)).
  now rewrite IH.
Qed.

Lemma substring_prefix (a b : string) :
  String.substring 0 (String.length a) (a ++ b) = a.
Proof.
  induction a as [|x a IH].
  - now destruct b.
  - change (String x (String.substring 0 (String.length a) (a ++ b)) = String x a).
    now rewrite IH.
Qed.

(** [freq_str[:-2]] takes the [Hz] off again. *)
Lemma drop_last2_Hz (s : string) : drop_last2 (s ++ "Hz") = s.
Proof.
  unfold drop_last2. rewrite append_length. cbn [String.length].
  replace (String.length s + 2 - 2)%nat with (String.length s) by lia.
  apply substring_prefix.
Qed.

Lemma span_spec (p : ascii -> bool) (s a b : string) :
  span p s = (a, b) ->
  s = (a ++ b)%string /\ all_chars p a = true /\
  match b with
  | EmptyString => True
  | String c _ => p c = false
  end.
Proof.
  revert a b. induction s as [|c s IH]; intros a b H; cbn in H.
  - injection H as <- <-. auto.
  - destruct (p c) eqn:Hc.
    + destruct (span p s) as [a' b'] eqn:E. injection H as <- <-.
      destruct (IH a' b' eq_refl) as (-> & Ha & Hb).
      split; [reflexivity|]. split; [|exact Hb]. cbn [all_chars]. now rewrite Hc, Ha.
    + injection H as <- <-. split; [reflexivity|]. split; [reflexivity|exact Hc].
Qed.

Lemma span_app (p : ascii -> bool) (a : string) (c : ascii) (r : string) :
  all_chars p a = true -> p c = false ->
  span p (a ++ String c r) = (a, String c r).
Proof.
  intros Ha Hc. induction a as [|x a IH].
  - change (span p (String c r) = ("", String c r)). cbn [span]. now rewrite Hc.
  - cbn [all_chars] in Ha. apply andb_true_iff in Ha as [Hx Ha].
    change (span p (String x (a ++ String c r)) = (String x a, String c r)).
    cbn [span]. now rewrite Hx, (IH Ha).
Qed.

Lemma span_before (p : ascii -> bool) (a : string) (c : ascii) (lit r : string) :
  all_chars p a = true -> p c = false ->
  span p (a ++ (String c lit ++ r)) = (a, (String c lit ++ r)%string).
Proof. intros Ha Hc. apply (span_app p a c (lit ++ r) Ha Hc). Qed.

Lemma digits_exactly_spec (n : nat) (s a b : string) :
  digits_exactly n s = Some (a, b) ->
  s = (a ++ b)%string /\ String.length a = n /\ all_chars is_digit a = true.
Proof.
  revert s a b. induction n as [|n IH]; intros s a b H; cbn in H.
  - injection H as <- <-. auto.
  - destruct s as [|c s]; [discriminate|]. destruct (is_digit c) eqn:Hc; [|discriminate].
    destruct (digits_exactly n s) as [[a' b']|] eqn:E; [|discriminate].
    injection H as <- <-. destruct (IH _ _ _ E) as (-> & Hlen & Ha).
    split; [reflexivity|]. split; [cbn [String.length]; now rewrite Hlen|].
    cbn [all_chars]. now rewrite Hc, Ha.
Qed.

Lemma digits_exactly_app (d r : string) :
  all_chars is_digit d = true ->
  digits_exactly (String.length d) (d ++ r) = Some (d, r).
Proof.
  intros Hd. induction d as [|c d IH]; [reflexivity|].
  cbn [all_chars] in Hd. apply andb_true_iff in Hd as [Hc Hd].
  change (digits_exactly (S (String.length d)) (String c (d ++ r)) = Some (String c d, r)).
  cbn [digits_exactly]. now rewrite Hc, (IH Hd).
Qed.

Lemma literal_spec (lit s r : string) : literal lit s = Some r -> s = (lit ++ r)%string.
Proof.
  revert s. induction lit as [|c lit IH]; intros s H; cbn in H.
  - now injection H as <-.
  - destruct s as [|d s]; [discriminate|].
    destruct (Ascii.eqb_spec c d) as [<-|]; [|discriminate].
    change (String c s = String c (lit ++ r))%string. now rewrite (IH _ H).
Qed.

Lemma literal_app (lit r : string) : literal lit (lit ++ r) = Some r.
Proof.
  induction lit as [|c lit IH]; [reflexivity|].
  change (literal (String c lit) (String c (lit ++ r)) = Some r).
  cbn [literal]. now rewrite Ascii.eqb_refl.
Qed.

(** X10.  A name built as [name_date_clockZ_digitsHz_AF.wav], with a
    non-empty [name] free of underscores, eight and six digits for the date
    and the clock and at least one digit for the frequency, matches the
    pattern and gives back its pieces, whatever follows [_AF.wav]. *)
Theorem conforming_name_is_matched (name date clock hz tail : string) :
  name <> ""%string -> all_chars not_underscore name = true ->
  String.length date = 8%nat -> all_chars is_digit date = true ->
  String.length clock = 6%nat -> all_chars is_digit clock = true ->
  hz <> ""%string -> all_chars is_digit hz = true ->
  match_filename
    (name ++ "_" ++ date ++ "_" ++ clock ++ "Z_" ++ hz ++ "Hz_AF.wav" ++ tail)
  = Some {| group_name := name;
            group_time := (date ++ "_" ++ clock ++ "Z")%string;
            group_freq := (hz ++ "Hz")%string |}.
Proof.
  intros Hname Hn Hdl Hd Hcl Hc Hhz Hh. unfold match_filename.
  rewrite (span_before not_underscore name "_" "") by (auto; reflexivity).
  destruct (String.eqb_spec name "") as [E|_]; [contradiction|].
  rewrite literal_app. cbn [mbind option_bind].
  rewrite <- Hdl at 1. rewrite digits_exactly_app by exact Hd. cbn [mbind option_bind].
  rewrite literal_app. cbn [mbind option_bind].
  rewrite <- Hcl at 1. rewrite digits_exactly_app by exact Hc. cbn [mbind option_bind].
  rewrite literal_app. cbn [mbind option_bind].
  rewrite (span_before is_digit hz "H" "z_AF.wav") by (auto; reflexivity).
  destruct (String.eqb_spec hz "") as [E|_]; [contradiction|].
  change ("Hz_AF.wav" ++ tail)%string with ("Hz" ++ ("_AF.wav" ++ tail))%string.
  rewrite literal_app. cbn [mbind option_bind]. rewrite literal_app.
  reflexivity.
Qed.

Lemma conforming_name_example :
  match_filename
    ("ISS" ++ "_" ++ "20240101" ++ "_" ++ "235959" ++ "Z_" ++ "145800000"
       ++ "Hz_AF.wav" ++ ".part")
  = Some {| group_name := "ISS";
            group_time := ("20240101" ++ "_" ++ "235959" ++ "Z")%string;
            group_freq := ("145800000" ++ "Hz")%string |}.
Proof.
  apply (conforming_name_is_matched "ISS" "20240101" "235959" "145800000" ".part");
    solve [discriminate | reflexivity].
Defined.

(** The pieces of a name that matched. *)
Lemma match_filename_inv (filename : string) (m : groups) :
  match_filename filename = Some m ->
  exists date clock hz tail,
    filename
      = (group_name m ++ "_" ++ group_time m ++ "_" ++ group_freq m ++ "_AF.wav" ++ tail)%string /\
    group_name m <> ""%string /\ all_chars not_underscore (group_name m) = true /\
    group_time m = (date ++ "_" ++ clock ++ "Z")%string /\
    String.length date = 8%nat /\ all_chars is_digit date = true /\
    String.length clock = 6%nat /\ all_chars is_digit clock = true /\
    group_freq m = (hz ++ "Hz")%string /\
    hz <> ""%string /\ all_chars is_digit hz = true.
Proof.
  unfold match_filename. intros H.
  destruct (span not_underscore filename) as [name r0] eqn:E0.
  apply span_spec in E0 as (-> & Hname & _).
  destruct (String.eqb_spec name "") as [|Hne]; [discriminate|].
  destruct (literal "_" r0) as [r1|] eqn:E1; cbn [mbind option_bind] in H; [|discriminate].
  apply literal_spec in E1 as ->.
  destruct (digits_exactly 8 r1) as [[date r2]|] eqn:E2; cbn [mbind option_bind] in H;
    [|discriminate].
  apply digits_exactly_spec in E2 as (-> & Hdl & Hd).
  destruct (literal "_" r2) as [r3|] eqn:E3; cbn [mbind option_bind] in H; [|discriminate].
  apply literal_spec in E3 as ->.
  destruct (digits_exactly 6 r3) as [[clock r4]|] eqn:E4; cbn [mbind option_bind] in H;
    [|discriminate].
  apply digits_exactly_spec in E4 as (-> & Hcl & Hc).
  destruct (literal "Z_" r4) as [r5|] eqn:E5; cbn [mbind option_bind] in H; [|discriminate].
  apply literal_spec in E5 as ->.
  destruct (span is_digit r5) as [hz r6] eqn:E6.
  apply span_spec in E6 as (-> & Hh & _).
  destruct (String.eqb_spec hz "") as [|Hhz]; [discriminate|].
  destruct (literal "Hz" r6) as [r7|] eqn:E7; cbn [mbind option_bind] in H; [|discriminate].
  apply literal_spec in E7 as ->.
  destruct (literal "_AF.wav" r7) as [tail|] eqn:E8; cbn [mbind option_bind] in H;
    [|discriminate].
  apply literal_spec in E8 as ->.
  injection H as <-. cbn [group_name group_time group_freq].
  exists date, clock, hz, tail. repeat split; auto.
  rewrite !append_assoc. reflexivity.
Qed.

(** X11.  Whatever matches the pattern starts with its three groups joined
    by underscores and followed by [_AF.wav]; the name is not empty and has
    no underscore, the time is sixteen characters (eight digits, an
    underscore, six digits and [Z]), and the frequency is one or more
    digits and [Hz], so that [freq_str[:-2]] is the digits alone. *)
Theorem matched_name_has_the_shape (filename : string) (m : groups) :
  match_filename filename = Some m ->
  exists date clock hz tail,
    filename
      = (group_name m ++ "_" ++ group_time m ++ "_" ++ group_freq m ++ "_AF.wav" ++ tail)%string /\
    group_name m <> ""%string /\ all_chars not_underscore (group_name m) = true /\
    group_time m = (date ++ "_" ++ clock ++ "Z")%string /\
    String.length (group_time m) = 16%nat /\
    all_chars is_digit date = true /\ all_chars is_digit clock = true /\
    drop_last2 (group_freq m) = hz /\
    hz <> ""%string /\ all_chars is_digit hz = true.
Proof.
  intros H. apply match_filename_inv in H
    as (date & clock & hz & tail & Hf & Hn1 & Hn2 & Ht & Hdl & Hd & Hcl & Hc & Hfreq & Hh1 & Hh2).
  exists date, clock, hz, tail.
  split; [exact Hf|]. split; [exact Hn1|]. split; [exact Hn2|]. split; [exact Ht|].
  split.
  - rewrite Ht, !append_length, Hdl, Hcl. reflexivity.
  - split; [exact Hd|]. split; [exact Hc|]. split; [|auto].
    rewrite Hfreq. apply drop_last2_Hz.
Qed.

Lemma matched_name_example :
  exists date clock hz tail,
    "ISS_20240101_235959Z_145800000Hz_AF.wav"%string
      = ("ISS" ++ "_" ++ "20240101_235959Z" ++ "_" ++ "145800000Hz" ++ "_AF.wav" ++ tail)%string /\
    "ISS"%string <> ""%string /\ all_chars not_underscore "ISS" = true /\
    "20240101_235959Z"%string = (date ++ "_" ++ clock ++ "Z")%string /\
    String.length "20240101_235959Z" = 16%nat /\
    all_chars is_digit date = true /\ all_chars is_digit clock = true /\
    drop_last2 "145800000Hz" = hz /\
    hz <> ""%string /\ all_chars is_digit hz = true.
Proof.
  apply (matched_name_has_the_shape "ISS_20240101_235959Z_145800000Hz_AF.wav"
           {| group_name := "ISS"; group_time := "20240101_235959Z";
              group_freq := "145800000Hz" |}).
  reflexivity.
Defined.

(** ** name_resolution *)

Lemma read_groups_Ok (py_float : string -> exc Q) (strptime : string -> exc datetime)
    (m : groups) (utc_time : datetime) (base_freq_mhz : Q) :
  read_groups py_float strptime m = Ok (utc_time, base_freq_mhz) ->
  strptime (group_time m) = Ok utc_time /\
  exists hz, py_float (drop_last2 (group_freq m)) = Ok hz /\
             base_freq_mhz = (hz / 1000000)%Q.
Proof.
  unfold read_groups. destruct (strptime _) as [t|]; cbn [bind]; [|discriminate].
  destruct (py_float _) as [hz|]; cbn [bind]; [|discriminate].
  intros H. inversion H; subst. eauto.
Qed.

Lemma manual_resolution_Resolved (py_float : string -> exc Q)
    (strptime : string -> exc datetime) (n : nat) :
  forall filename stdin out name time_str freq_str utc_time base_freq_mhz rest,
    (length stdin <= n)%nat ->
    manual_resolution py_float strptime filename stdin
      = (out, Resolved name time_str freq_str utc_time base_freq_mhz rest) ->
    exists typed m,
      match_filename typed = Some m /\
      read_groups py_float strptime m = Ok (utc_time, base_freq_mhz) /\
      name = group_name m /\ time_str = group_time m /\ freq_str = group_freq m /\
      rest `suffix_of` stdin /\ (length rest + 3 <= length stdin)%nat.
Proof.
  induction n as [|n IH];
    intros filename stdin out name time_str freq_str utc_time base_freq_mhz rest Hlen H.
  - destruct stdin; [discriminate H|cbn in Hlen; lia].
  - destruct stdin as [|l1 [|l2 [|l3 stdin]]]; try discriminate H.
    cbn [manual_resolution] in H. cbn [length] in Hlen.
    set (typed := (l1 ++ "_" ++ l2 ++ "_" ++ l3 ++ "_AF.wav")%string) in *.
    assert (Hrec : forall out',
      manual_resolution py_float strptime typed stdin
        = (out', Resolved name time_str freq_str utc_time base_freq_mhz rest) ->
      exists typed' m,
        match_filename typed' = Some m /\
        read_groups py_float strptime m = Ok (utc_time, base_freq_mhz) /\
        name = group_name m /\ time_str = group_time m /\ freq_str = group_freq m /\
        rest `suffix_of` l1 :: l2 :: l3 :: stdin /\
        (length rest + 3 <= length (l1 :: l2 :: l3 :: stdin))%nat).
    { intros out' Hr. apply IH in Hr as (t' & m & ? & ? & ? & ? & ? & Hs & Hl); [|lia].
      exists t', m. repeat split; auto.
      - do 3 apply suffix_cons_r. exact Hs.
      - cbn [length]. lia. }
    destruct (match_filename typed) as [m|] eqn:Em.
    + destruct (read_groups py_float strptime m) as [[u b]|e] eqn:Er.
      * inversion H; subst. exists typed, m. repeat split; auto.
        -- do 3 apply suffix_cons_r. reflexivity.
        -- cbn [length]. lia.
      * destruct e; try discriminate H.
        destruct (manual_resolution py_float strptime typed stdin) as [out' r] eqn:E.
        inversion H; subst. eapply Hrec. reflexivity.
    + destruct (manual_resolution py_float strptime typed stdin) as [out' r] eqn:E.
      inversion H; subst. eapply Hrec. reflexivity.
Qed.

Lemma name_resolution_Resolved (py_float : string -> exc Q)
    (strptime : string -> exc datetime) (filename : string) (stdin : list string)
    (out : list console) (name time_str freq_str : string) (utc_time : datetime)
    (base_freq_mhz : Q) (rest : list string) :
  name_resolution py_float strptime filename stdin
    = (out, Resolved name time_str freq_str utc_time base_freq_mhz rest) ->
  exists typed m,
    match_filename typed = Some m /\
    read_groups py_float strptime m = Ok (utc_time, base_freq_mhz) /\
    name = group_name m /\ time_str = group_time m /\ freq_str = group_freq m /\
    rest `suffix_of` stdin.
Proof.
  unfold name_resolution. intros H.
  destruct (match_filename filename) as [m|] eqn:Em.
  - destruct (read_groups py_float strptime m) as [[u b]|e] eqn:Er; [|discriminate H].
    inversion H; subst. exists filename, m. repeat split; auto.
  - apply (manual_resolution_Resolved _ _ (length stdin)) in H
      as (typed & m & ? & ? & ? & ? & ? & ? & _); [|lia].
    exists typed, m. repeat split; auto.
Qed.

(** X12.  What [name_resolution] returns hangs together, for a name that
    matched as for metadata typed in: [utc_time] is the parsed [time_str],
    [freq_str] is digits followed by [Hz], [base_freq_mhz] is that number
    divided by [1e6], and the input left over is a tail of the input
    given. *)
Theorem name_resolution_returns_consistent_fields
    (py_float : string -> exc Q) (strptime : string -> exc datetime)
    (filename : string) (stdin : list string) (out : list console)
    (name time_str freq_str : string) (utc_time : datetime) (base_freq_mhz : Q)
    (rest : list string) :
  name_resolution py_float strptime filename stdin
    = (out, Resolved name time_str freq_str utc_time base_freq_mhz rest) ->
  strptime time_str = Ok utc_time /\
  (exists digits hz,
     freq_str = (digits ++ "Hz")%string /\ digits <> ""%string /\
     all_chars is_digit digits = true /\
     py_float digits = Ok hz /\ base_freq_mhz = (hz / 1000000)%Q) /\
  name <> ""%string /\ all_chars not_underscore name = true /\
  rest `suffix_of` stdin.
Proof.
  intros H. apply name_resolution_Resolved in H
    as (typed & m & Hm & Hr & -> & -> & -> & Hs).
  apply read_groups_Ok in Hr as (Ht & hz & Hf & ->).
  apply match_filename_inv in Hm
    as (date & clock & digits & tail & _ & Hn1 & Hn2 & _ & _ & _ & _ & _ & Hfreq & Hd1 & Hd2).
  rewrite Hfreq in Hf |- *. rewrite drop_last2_Hz in Hf.
  split; [exact Ht|]. split; [|auto]. exists digits, hz. auto.
Qed.

Lemma name_resolution_consistent_example :
  strptime_utc "20240101_000000Z" = Ok new_year_2024 /\
  (exists digits hz,
     "145800000Hz"%string = (digits ++ "Hz")%string /\ digits <> ""%string /\
     all_chars is_digit digits = true /\
     float_of_digits digits = Ok hz /\ (145800000 # 1000000) = (hz / 1000000)%Q) /\
  "ISS"%string <> ""%string /\ all_chars not_underscore "ISS" = true /\
  ["1"] `suffix_of` ["ISS"; "20240101_000000Z"; "145800000Hz"; "1"].
Proof.
  apply (name_resolution_returns_consistent_fields float_of_digits strptime_utc
           "recording.wav" ["ISS"; "20240101_000000Z"; "145800000Hz"; "1"]
           [PrintNotMatching "recording.wav";
            PrintResolved "ISS" new_year_2024 (145800000 # 1000000)]).
  vm_compute. reflexivity.
Defined.

Lemma manual_resolution_no_ValueError (py_float : string -> exc Q)
    (strptime : string -> exc datetime) (n : nat) :
  forall filename stdin out,
    (length stdin <= n)%nat ->
    manual_resolution py_float strptime filename stdin
      <> (out, ResolutionRaised ValueError).
Proof.
  induction n as [|n IH]; intros filename stdin out Hlen H.
  - destruct stdin; [discriminate H|cbn in Hlen; lia].
  - destruct stdin as [|l1 [|l2 [|l3 stdin]]]; try discriminate H.
    cbn [manual_resolution] in H. cbn [length] in Hlen.
    set (typed := (l1 ++ "_" ++ l2 ++ "_" ++ l3 ++ "_AF.wav")%string) in *.
    destruct (match_filename typed) as [m|].
    + destruct (read_groups py_float strptime m) as [[u b]|e]; [discriminate H|].
      destruct e; try (inversion H; fail).
      destruct (manual_resolution py_float strptime typed stdin) as [out' r] eqn:E.
      inversion H; subst. eapply (IH typed stdin out'); [lia|exact E].
    + destruct (manual_resolution py_float strptime typed stdin) as [out' r] eqn:E.
      inversion H; subst. eapply (IH typed stdin out'); [lia|exact E].
Qed.

(** X13.  A [ValueError] leaves [name_resolution] only when the file name
    itself matches the pattern and its time or frequency cannot be
    converted; nothing is printed before.  The same fields typed in at the
    prompt never let a [ValueError] out: they are asked for again. *)
Theorem ValueError_only_from_the_file_name
    (py_float : string -> exc Q) (strptime : string -> exc datetime)
    (filename : string) (stdin : list string) (out : list console) :
  name_resolution py_float strptime filename stdin = (out, ResolutionRaised ValueError) ->
  out = [] /\
  exists m, match_filename filename = Some m /\
            read_groups py_float strptime m = Raise ValueError.
Proof.
  unfold name_resolution. intros H.
  destruct (match_filename filename) as [m|] eqn:Em.
  - destruct (read_groups py_float strptime m) as [[u b]|e] eqn:Er; [discriminate H|].
    inversion H; subst. split; [reflexivity|]. eauto.
  - exfalso. eapply (manual_resolution_no_ValueError _ _ (length stdin)); [|exact H]. lia.
Qed.

Lemma ValueError_from_the_file_name_example :
  ([] : list console) = [] /\
  exists m, match_filename "ISS_20241301_235959Z_145800000Hz_AF.wav" = Some m /\
            read_groups float_of_digits strptime_utc m = Raise ValueError.
Proof.
  apply (ValueError_only_from_the_file_name float_of_digits strptime_utc
           "ISS_20241301_235959Z_145800000Hz_AF.wav" ["x"] []).
  vm_compute. reflexivity.
Defined.

Example bad_date_typed_in_is_asked_again :
  name_resolution float_of_digits strptime_utc "recording.wav"
    ["ISS"; "20241301_235959Z"; "145800000Hz"; "ISS"; "20240101_000000Z"; "145800000Hz"]
  = ([PrintNotMatching "recording.wav"; PrintBadFormat;
      PrintNotMatching "ISS_20241301_235959Z_145800000Hz_AF.wav";
      PrintResolved "ISS" new_year_2024 (145800000 # 1000000)],
     Resolved "ISS" "20240101_000000Z" "145800000Hz" new_year_2024
              (145800000 # 1000000) []).
Proof. vm_compute. reflexivity. Qed.

(** ** The file selection loop *)

Lemma wav_files_elem (listdir : list string) (f : string) :
  f ∈ wav_files listdir <-> f ∈ listdir /\ endswith ".wav" f = true.
Proof.
  unfold wav_files. rewrite !list_elem_of_In, List.filter_In. reflexivity.
Qed.

Lemma choose_file_Chosen (py_int_str : string -> exc Z) (files : list string) :
  forall stdin out filename rest,
    choose_file py_int_str files stdin = (out, Chosen filename rest) ->
    exists typed n,
      typed ∈ stdin /\ py_int_str typed = Ok n /\
      1 <= n <= Z.of_nat (length files) /\
      files !! Z.to_nat (n - 1) = Some filename /\
      rest `suffix_of` stdin.
Proof.
  induction stdin as [|choosefile stdin IH]; intros out filename rest H.
  - discriminate H.
  - cbn [choose_file] in H.
    assert (Hrec : forall out',
      choose_file py_int_str files stdin = (out', Chosen filename rest) ->
      exists typed n,
        typed ∈ choosefile :: stdin /\ py_int_str typed = Ok n /\
        1 <= n <= Z.of_nat (length files) /\
        files !! Z.to_nat (n - 1) = Some filename /\
        rest `suffix_of` choosefile :: stdin).
    { intros out' Hr. apply IH in Hr as (typed & n & ? & ? & ? & ? & Hs).
      exists typed, n. repeat split; auto; try lia.
      - now right.
      - now apply suffix_cons_r. }
    destruct (py_int_str choosefile) as [n|e] eqn:En.
    + destruct ((0 <=? n - 1) && (n - 1 <? Z.of_nat (length files))) eqn:Eb.
      * apply andb_true_iff in Eb as [H1 H2].
        destruct (getitem files (n - 1)) as [f|e] eqn:Eg; inversion H; subst.
        exists choosefile, n. split; [left|]. split; [exact En|]. split; [lia|].
        split; [|apply suffix_cons_r; reflexivity].
        revert Eg. unfold getitem.
        replace (n - 1 <? 0) with false by lia.
        destruct (_ && _); [|discriminate].
        destruct (files !! Z.to_nat (n - 1)) as [x|]; [|discriminate].
        cbn. now intros [= ->].
      * destruct (choose_file py_int_str files stdin) as [out' r] eqn:E.
        inversion H; subst. eapply Hrec. reflexivity.
    + destruct e; try discriminate H.
      destruct (choose_file py_int_str files stdin) as [out' r] eqn:E.
      inversion H; subst. eapply Hrec. reflexivity.
Qed.

(** X14.  The file the loop ends with is one of the directory's entries
    that end in [.wav]: the one listed under the number typed, counting
    from 1.  Numbers outside the list and lines that are not numbers are
    passed over. *)
Theorem chosen_file_is_the_listed_wav_file
    (py_int_str : string -> exc Z) (listdir stdin : list string)
    (out : list console) (filename : string) (rest : list string) :
  choose_file py_int_str (wav_files listdir) stdin = (out, Chosen filename rest) ->
  filename ∈ listdir /\ endswith ".wav" filename = true /\
  exists typed n,
    typed ∈ stdin /\ py_int_str typed = Ok n /\
    1 <= n <= Z.of_nat (length (wav_files listdir)) /\
    wav_files listdir !! Z.to_nat (n - 1) = Some filename.
Proof.
  intros H. apply choose_file_Chosen in H as (typed & n & Ht & Hn & Hr & Hf & _).
  assert (Hin : filename ∈ wav_files listdir) by (eapply list_elem_of_lookup_2; exact Hf).
  apply wav_files_elem in Hin as [H1 H2].
  split; [exact H1|]. split; [exact H2|]. exists typed, n. auto.
Qed.

Lemma chosen_file_example :
  "b.wav"%string ∈ ["a.wav"; "notes.txt"; "b.wav"]%string /\
  endswith ".wav" "b.wav" = true /\
  exists typed n,
    typed ∈ ["0"; "x"; "3"; "2"; "r"]%string /\ int_of_digits typed = Ok n /\
    1 <= n <= Z.of_nat (length (wav_files ["a.wav"; "notes.txt"; "b.wav"])) /\
    wav_files ["a.wav"; "notes.txt"; "b.wav"] !! Z.to_nat (n - 1) = Some "b.wav"%string.
Proof.
  apply (chosen_file_is_the_listed_wav_file int_of_digits
           ["a.wav"; "notes.txt"; "b.wav"] ["0"; "x"; "3"; "2"; "r"]
           [PrintInvalidSelection; PrintSelectionNotANumber; PrintInvalidSelection]
           "b.wav" ["r"]).
  vm_compute. reflexivity.
Defined.

(** X15.  In a directory without a [.wav] file the loop cannot end with a
    file: whatever is typed is refused, until the input runs out or [int]
    raises something other than a [ValueError]. *)
Theorem no_wav_file_no_choice
    (py_int_str : string -> exc Z) (listdir stdin : list string) :
  wav_files listdir = [] ->
  match (choose_file py_int_str (wav_files listdir) stdin).2 with
  | Chosen _ _ => False
  | ChoiceRaised e => e <> ValueError
  | ChoiceEndOfInput => True
  end.
Proof.
  intros ->. induction stdin as [|choosefile stdin IH]; [exact I|].
  cbn [choose_file]. destruct (py_int_str choosefile) as [n|e].
  - assert (Eb : (0 <=? n - 1) && (n - 1 <? Z.of_nat (length ([] : list string))) = false).
    { destruct (0 <=? n - 1) eqn:E1; [|reflexivity].
      cbn [andb length]. apply Z.ltb_ge. lia. }
    rewrite Eb. destruct (choose_file py_int_str [] stdin) as [out r]. exact IH.
  - destruct e; cbn; try discriminate.
    destruct (choose_file py_int_str [] stdin) as [out r]. exact IH.
Qed.

Lemma no_wav_file_example :
  match (choose_file int_of_digits (wav_files ["notes.txt"; "wav"]) ["1"; "0"; "x"]).2 with
  | Chosen _ _ => False
  | ChoiceRaised e => e <> ValueError
  | ChoiceEndOfInput => True
  end.
Proof.
  apply (no_wav_file_no_choice int_of_digits ["notes.txt"; "wav"] ["1"; "0"; "x"]).
  reflexivity.
Defined.

(** ** The parameters typed in *)

Lemma manual_entry_consumes (py_float : string -> exc Q) (n : nat) :
  forall stdin out NFFT noverlap rest,
    (length stdin <= n)%nat ->
    manual_entry py_float stdin = (out, Selected NFFT noverlap rest) ->
    (length rest + 2 <= length stdin)%nat.
Proof.
  induction n as [|n IH]; intros stdin out NFFT noverlap rest Hlen H.
  - destruct stdin; [discriminate H|cbn in Hlen; lia].
  - destruct stdin as [|l1 stdin1]; [discriminate H|]. cbn [length] in *.
    cbn [manual_entry] in H. destruct (py_float l1) as [x|e].
    + destruct stdin1 as [|l2 stdin2]; [discriminate H|]. cbn [length] in *.
      destruct (py_float l2) as [y|e].
      * destruct (py_int x >=? py_int y).
        -- inversion H; subst. lia.
        -- apply say_selected in H as [out' H]. apply IH in H; lia.
      * apply say_selected in H as [out' H]. apply IH in H; lia.
    + apply say_selected in H as [out' H]. apply IH in H; lia.
Qed.

(** X16.  After choosing preset 0, the first two numbers typed are taken
    exactly when the window length is at least the overlap: an overlap
    equal to the window length is accepted, and so are negative numbers;
    both numbers are cut to integers towards zero first. *)
Theorem typed_pair_is_taken_iff_window_at_least_overlap
    (py_float : string -> exc Q) (l1 l2 : string) (rest : list string) (x y : Q) :
  py_float l1 = Ok x ->
  py_float l2 = Ok y ->
  (select_parameters py_float ("0" :: l1 :: l2 :: rest)).2
    = Selected (py_int x) (py_int y) rest
  <-> py_int y <= py_int x.
Proof.
  intros H1 H2. cbn. rewrite H1, H2.
  destruct (py_int x >=? py_int y) eqn:E.
  - cbn. split; [lia|reflexivity].
  - split; [|lia]. intros H. exfalso.
    destruct (manual_entry py_float rest) as [out r] eqn:Em. cbn in H. subst r.
    apply (manual_entry_consumes _ (length rest)) in Em; lia.
Qed.

Lemma typed_pair_example :
  (select_parameters float_of_digits ["0"; "1024"; "1024"; "x"]).2
    = Selected (py_int 1024) (py_int 1024) ["x"]
  <-> py_int 1024 <= py_int 1024.
Proof.
  apply (typed_pair_is_taken_iff_window_at_least_overlap float_of_digits
           "1024" "1024" ["x"] 1024 1024); reflexivity.
Defined.

(** ** The script as a whole *)

Section ScriptProperties.

Variable listdir : list string.
Variable py_int_str : string -> exc Z.
Variable py_float : string -> exc Q.
Variable strptime : string -> exc datetime.
Variable read : string -> exc (Z * ndarray).
Variable spectrogram : list Z -> Z -> Z -> Z -> exc surface.

(** A run that reaches the loader has chosen a file, resolved its name
    twice and selected the parameters in between. *)
Lemma script_reaches_loader (stdin : list string) (out : list output) (fin : finished) :
  script listdir py_int_str py_float strptime read spectrogram stdin = (out, fin) ->
  match fin with
  | Plotted _ _ _ _ _ _ _ _ | PlottedWithoutData => True
  | Crashed _ | OutOfInput => False
  end ->
  exists filename s1 s2 s3 s4 o0 o1 o5 o2 NFFT noverlap
         n1 t1 f1 u1 b1 name time_str freq_str utc_time base_freq_mhz,
    choose_file py_int_str (wav_files listdir) stdin = (o0, Chosen filename s1) /\
    name_resolution py_float strptime filename s1 = (o1, Resolved n1 t1 f1 u1 b1 s2) /\
    select_parameters py_float s2 = (o5, Selected NFFT noverlap s3) /\
    name_resolution py_float strptime filename s3
      = (o2, Resolved name time_str freq_str utc_time base_freq_mhz s4) /\
    match (data_acquisition read filename).2 with
    | Loaded sample_rate (Mono linear_array) =>
        fin = Plotted {| name := name; freq_str := freq_str |} NFFT noverlap sample_rate
                linear_array utc_time base_freq_mhz
                (plot_fft_freq_chart py_float spectrogram
                   {| name := name; freq_str := freq_str |} NFFT noverlap sample_rate
                   linear_array utc_time base_freq_mhz).2
    | Loaded _ (Multi _) => False
    | NoneNone => fin = PlottedWithoutData
    | MinusOne => False
    end.
Proof.
  unfold script, resolve_load_plot. intros H Hfin.
  destruct (choose_file _ _ _) as [o0 [filename s1|e|]] eqn:E0;
    try (inversion H; subst; contradiction).
  destruct (name_resolution _ _ filename s1) as [o1 [n1 t1 f1 u1 b1 s2|e|]] eqn:E1;
    try (inversion H; subst; contradiction).
  destruct (select_parameters _ s2) as [o5 [NFFT noverlap s3|]] eqn:E5;
    try (inversion H; subst; contradiction).
  destruct (name_resolution _ _ filename s3)
    as [o2 [name time_str freq_str utc_time base_freq_mhz s4|e|]] eqn:E2;
    try (inversion H; subst; contradiction).
  destruct (data_acquisition read filename) as [o3 loaded] eqn:E3.
  exists filename, s1, s2, s3, s4, o0, o1, o5, o2, NFFT, noverlap,
         n1, t1, f1, u1, b1, name, time_str, freq_str, utc_time, base_freq_mhz.
  split; [reflexivity|]. split; [exact E1|]. split; [exact E5|]. split; [exact E2|].
  rewrite E3. cbn [snd].
  destruct loaded as [sample_rate [linear_array|frames]| |];
    try (inversion H; subst; contradiction).
  - destruct (plot_fft_freq_chart _ _ _ _ _ _ _ _ _) as [o4 r].
    inversion H; subst. reflexivity.
  - inversion H; subst. reflexivity.
Qed.

Lemma traverse_first_Ok (frames : list (list Z)) (samples : list Z) :
  traverse (fun frame => getitem frame 0) frames = Ok samples ->
  length samples = length frames /\
  forall i frame, frames !! i = Some frame -> samples !! i = head frame.
Proof.
  revert samples. induction frames as [|frame frames IH]; intros samples H.
  - cbn in H. injection H as <-. split; [reflexivity|]. intros i frame Hi. inversion Hi.
  - cbn [traverse] in H. destruct frame as [|x frame]; [discriminate H|].
    cbn in H. destruct (traverse _ frames) as [col|] eqn:E; [|discriminate H].
    cbn in H. injection H as <-. destruct (IH col eq_refl) as [Hlen Hget].
    split; [cbn; now rewrite Hlen|].
    intros [|i] frame' Hi; cbn in *; [now injection Hi as <-|now apply Hget].
Qed.

Lemma data_acquisition_Loaded (filename : string) (sample_rate : Z) (a : ndarray) :
  (data_acquisition read filename).2 = Loaded sample_rate a ->
  exists read_array,
    read filename = Ok (sample_rate, read_array) /\
    match read_array with
    | Mono xs => a = Mono xs
    | Multi frames =>
        exists samples, a = Mono samples /\
          traverse (fun frame => getitem frame 0) frames = Ok samples
    end.
Proof.
  unfold data_acquisition. destruct (read filename) as [[rate arr]|e].
  - destruct arr as [xs|frames]; cbn [ndim].
    + cbn. intros H. inversion H; subst. exists (Mono xs). split; reflexivity.
    + change (1 <? 2) with true. cbv iota. cbn [first_column].
      destruct (traverse _ frames) as [col|e] eqn:E; cbn.
      * intros H. inversion H; subst. exists (Multi frames). split; [reflexivity|].
        exists col. split; [reflexivity|exact E].
      * destruct e; discriminate.
  - destruct e; discriminate.
Qed.

Lemma data_acquisition_NoneNone (filename : string) :
  (data_acquisition read filename).2 = NoneNone -> read filename = Raise IOError.
Proof.
  unfold data_acquisition. destruct (read filename) as [[rate arr]|e].
  - destruct arr as [xs|frames]; cbn [ndim]; [discriminate|].
    change (1 <? 2) with true. cbv iota. intros H.
    destruct (first_column (Multi frames)) as [a|e] eqn:E; [discriminate H|].
    destruct (first_column_raises _ _ E) as [-> _]. discriminate H.
  - destruct e; try discriminate. reflexivity.
Qed.


(** X18.  What the script plots was read from a file of the directory
    whose name ends in [.wav]: the samples are that file's array, or the
    first channel of every frame when it has several, with the sample rate
    as read; and the overlap used is not above the window length. *)
Theorem script_plots_a_listed_wav_file
    (stdin : list string) (out : list output) (g : globals)
    (NFFT noverlap sample_rate : Z) (linear_array : list Z)
    (utc_time : datetime) (base_freq_mhz : Q) (r : plot_result) :
  script listdir py_int_str py_float strptime read spectrogram stdin
    = (out, Plotted g NFFT noverlap sample_rate linear_array utc_time base_freq_mhz r) ->
  ~ NFFT < noverlap /\
  exists filename read_array,
    filename ∈ listdir /\ endswith ".wav" filename = true /\
    read filename = Ok (sample_rate, read_array) /\
    match read_array with
    | Mono xs => linear_array = xs
    | Multi frames =>
        length linear_array = length frames /\
        forall i frame, frames !! i = Some frame -> linear_array !! i = head frame
    end.
Proof.
  intros H. apply script_reaches_loader in H; [|exact I].
  destruct H as (filename & s1 & s2 & s3 & s4 & o0 & o1 & o5 & o2 & N & V &
                 n1 & t1 & f1 & u1 & b1 & name & time_str & freq_str & utc & mhz &
                 H0 & _ & H5 & _ & Hload).
  destruct (data_acquisition read filename).2 as [rate [xs|frames]| |] eqn:El;
    try contradiction; try discriminate Hload.
  inversion Hload; subst. clear Hload.
  split; [eapply select_parameters_rejects; exact H5|].
  apply choose_file_Chosen in H0 as (typed & n & _ & _ & _ & Hf & _).
  assert (Hin : filename ∈ wav_files listdir) by (eapply list_elem_of_lookup_2; exact Hf).
  apply wav_files_elem in Hin as [Hin Hwav].
  apply data_acquisition_Loaded in El as (read_array & Hread & Ha).
  exists filename, read_array. split; [exact Hin|]. split; [exact Hwav|].
  split; [exact Hread|].
  destruct read_array as [ys|frames].
  - now injection Ha as <-.
  - destruct Ha as (samples & [= <-] & Ht). now apply traverse_first_Ok.
Qed.

(** X19.  The function is called on [(None, None)] only after reading the
    chosen file raised an [IOError]: the loader's [(None, None)] does not
    stop the script, which goes on to [plot_fft_freq_chart] without
    data. *)
Theorem plot_without_data_follows_IOError (stdin : list string) (out : list output) :
  script listdir py_int_str py_float strptime read spectrogram stdin
    = (out, PlottedWithoutData) ->
  exists filename,
    filename ∈ listdir /\ endswith ".wav" filename = true /\
    read filename = Raise IOError.
Proof.
  intros H. apply script_reaches_loader in H; [|exact I].
  destruct H as (filename & s1 & s2 & s3 & s4 & o0 & o1 & o5 & o2 & N & V &
                 n1 & t1 & f1 & u1 & b1 & name & time_str & freq_str & utc & mhz &
                 H0 & _ & _ & _ & Hload).
  destruct (data_acquisition read filename).2 as [rate [xs|frames]| |] eqn:El;
    try contradiction; try discriminate Hload.
  apply choose_file_Chosen in H0 as (typed & n & _ & _ & _ & Hf & _).
  assert (Hin : filename ∈ wav_files listdir) by (eapply list_elem_of_lookup_2; exact Hf).
  apply wav_files_elem in Hin as [Hin Hwav].
  exists filename. split; [exact Hin|]. split; [exact Hwav|].
  now apply data_acquisition_NoneNone.
Qed.

(** X20.  The metadata is resolved twice, before and after the parameters
    are selected, and the first result is thrown away: two runs that
    differ only in what the first resolution read, and leave the same
    input behind it, end the same way. *)
Theorem first_resolution_is_not_used
    (stdin stdin' : list string) (filename : string) (s1 s1' s2 : list string)
    (o0 o0' o1 o1' : list console)
    (n1 t1 f1 n1' t1' f1' : string) (u1 u1' : datetime) (b1 b1' : Q) :
  choose_file py_int_str (wav_files listdir) stdin = (o0, Chosen filename s1) ->
  choose_file py_int_str (wav_files listdir) stdin' = (o0', Chosen filename s1') ->
  name_resolution py_float strptime filename s1 = (o1, Resolved n1 t1 f1 u1 b1 s2) ->
  name_resolution py_float strptime filename s1' = (o1', Resolved n1' t1' f1' u1' b1' s2) ->
  (script listdir py_int_str py_float strptime read spectrogram stdin).2
  = (script listdir py_int_str py_float strptime read spectrogram stdin').2.
Proof.
  intros H0 H0' H1 H1'. unfold script. rewrite H0, H0', H1, H1'.
  destruct (select_parameters py_float s2) as [o5 [NFFT noverlap s3|]]; [|reflexivity].
  destruct (resolve_load_plot _ _ _ _ _ _ _ _) as [o r]. reflexivity.
Qed.

End ScriptProperties.


Lemma script_plots_a_listed_wav_file_example :
  ~ 16384 < 12000 /\
  exists filename read_array,
    filename ∈ example_dir /\ endswith ".wav" filename = true /\
    example_reader filename = Ok (4, read_array) /\
    match read_array with
    | Mono xs => burst_samples = xs
    | Multi frames =>
        length burst_samples = length frames /\
        forall i frame, frames !! i = Some frame -> burst_samples !! i = head frame
    end.
Proof.
  eapply (script_plots_a_listed_wav_file example_dir int_of_digits float_of_digits
            strptime_utc example_reader (answering burst_then_silence) ["1"; "3"]).
  vm_compute. reflexivity.
Defined.

Lemma plot_without_data_example :
  exists filename,
    filename ∈ example_dir /\ endswith ".wav" filename = true /\
    unreadable filename = Raise IOError.
Proof.
  eapply (plot_without_data_follows_IOError example_dir int_of_digits float_of_digits
            strptime_utc unreadable (answering burst_then_silence) ["1"; "3"]).
  vm_compute. reflexivity.
Defined.

Lemma first_resolution_is_not_used_example :
  (script ["recording.wav"] int_of_digits float_of_digits strptime_utc
     (fun _ => Ok (4, Mono burst_samples)) (answering burst_then_silence)
     ["1"; "MOON"; "19990101_000000Z"; "1Hz"; "3";
      "ISS"; "20240101_000000Z"; "137100000Hz"]).2
  = (script ["recording.wav"] int_of_digits float_of_digits strptime_utc
       (fun _ => Ok (4, Mono burst_samples)) (answering burst_then_silence)
       ["1"; "SUN"; "20000229_120000Z"; "2Hz"; "3";
        "ISS"; "20240101_000000Z"; "137100000Hz"]).2.
Proof.
  eapply (first_resolution_is_not_used ["recording.wav"] int_of_digits float_of_digits
            strptime_utc).
  - vm_compute. reflexivity.
  - vm_compute. reflexivity.
  - vm_compute. reflexivity.
  - vm_compute. reflexivity.
Defined.

Example script_run :
  (script example_dir int_of_digits float_of_digits strptime_utc example_reader
     (answering burst_then_silence) ["1"; "3"]).2
  = Plotted example_globals 16384 12000 4 burst_samples new_year_2024
      (137100000 # 1000000) example_plot.
Proof. vm_compute. reflexivity. Qed.

Example script_asks_twice :
  (script ["recording.wav"] int_of_digits float_of_digits strptime_utc
     (fun _ => Ok (4, Mono burst_samples)) (answering burst_then_silence)
     ["1"; "MOON"; "19990101_000000Z"; "1Hz"; "3";
      "ISS"; "20240101_000000Z"; "137100000Hz"]).2
  = Plotted example_globals 16384 12000 4 burst_samples new_year_2024
      (137100000 # 1000000) example_plot.
Proof. vm_compute. reflexivity. Qed.
